(** * nmap-server: the scan request pipeline of [src/index.ts]

    A shallow embedding of the one tool of the server, [run_nmap_scan]:
    the argument schema [NmapScanSchema], the command builder and executor
    [runNmapScan], and the [CallToolRequestSchema] handler that maps the
    outcome of both onto the protocol's result envelope.

    The program is TypeScript on Node.  Values that cross the protocol
    boundary are JSON values; the two library facilities the program calls
    (zod's [safeParse] and [promisify(exec)] of [child_process]) are modelled
    after their documented contracts in the modules [Zod] and [Node]. *)

From Stdlib Require Import String Ascii List ZArith NArith Lia Bool DecimalString.
Import ListNotations.

Local Open Scope string_scope.
Local Open Scope Z_scope.

Set Warnings "-register-all".

(* ================================================================== *)
(** ** Strings *)

Module Str.

(** JS truthiness of a string: every string but the empty one. *)
Definition truthy (s : string) : bool :=
  match s with
  | EmptyString => false
  | String _ _ => true
  end.

Fixpoint repeat0 (n : nat) : string :=
  match n with
  | O => EmptyString
  | S k => String "0" (repeat0 k)
  end.

Fixpoint take (n : nat) (s : string) : string :=
  match n, s with
  | S k, String c r => String c (take k r)
  | _, _ => EmptyString
  end.

Fixpoint drop (n : nat) (s : string) : string :=
  match n, s with
  | S k, String _ r => drop k r
  | _, _ => s
  end.

(** Every character of the string satisfies [p]. *)
Fixpoint all (p : ascii -> bool) (s : string) : bool :=
  match s with
  | EmptyString => true
  | String c r => p c && all p r
  end.

(** [starts_with p s]: [p] is a prefix of [s] (the library's [prefix]). *)
Definition starts_with (p s : string) : bool := String.prefix p s.

(** [contains sub s]: [sub] occurs in [s] at some offset. *)
Fixpoint contains (sub s : string) : bool :=
  String.prefix sub s ||
  match s with
  | EmptyString => false
  | String _ r => contains sub r
  end.

Definition is_space (c : ascii) : bool := Ascii.eqb c " ".

(** Words of a command line: maximal runs of characters other than the
    space, in order. *)
Definition flush (acc : string) : list string :=
  if truthy acc then [acc] else [].

Fixpoint words_from (acc s : string) : list string :=
  match s with
  | EmptyString => flush acc
  | String c r =>
      if is_space c then flush acc ++ words_from EmptyString r
      else words_from (acc ++ String c EmptyString) r
  end.

Definition words (s : string) : list string := words_from EmptyString s.

End Str.

(* ================================================================== *)
(** ** JS numbers and their string form *)

(** A Number is modelled by its decimal form: not-a-number, an infinity, or
    a signed finite decimal [s * 10^e] with its sign.  Every finite double has such a
    form (the shortest decimal that reads back as that double, which is the
    one [Number::toString] prints); zero keeps its sign.  Comparison with
    the constants [0] and [5], which are doubles, agrees on the double and on
    its decimal form because rounding is monotone. *)
Inductive number : Type :=
| NaN
| Infinity (negative : bool)
| Finite (negative : bool) (s : N) (e : Z).

Module Num.

Definition of_Z (z : Z) : number := Finite (z <? 0) (Z.abs_N z) 0.

(** Scaled integer pair with a common exponent, for comparisons. *)
Definition signed (negative : bool) (s : N) : Z :=
  if negative then - Z.of_N s else Z.of_N s.

Definition align (s1 : Z) (e1 : Z) (s2 : Z) (e2 : Z) : Z * Z :=
  let m := Z.min e1 e2 in
  (s1 * 10 ^ (e1 - m), s2 * 10 ^ (e2 - m)).

(** [x < y] on Numbers; false whenever an operand is NaN. *)
Definition ltb (x y : number) : bool :=
  match x, y with
  | NaN, _ | _, NaN => false
  | Infinity nx, Infinity ny => nx && negb ny
  | Infinity nx, Finite _ _ _ => nx
  | Finite _ _ _, Infinity ny => negb ny
  | Finite n1 s1 e1, Finite n2 s2 e2 =>
      let (a, b) := align (signed n1 s1) e1 (signed n2 s2) e2 in a <? b
  end.

Definition gtb (x y : number) : bool := ltb y x.

(** The mathematical value is an integer [z]. *)
Definition is_Z (x : number) (z : Z) : Prop :=
  match x with
  | Finite n s e =>
      let (a, b) := align (signed n s) e z 0 in a = b
  | _ => False
  end.

(** Decimal digits of a positive integer, most significant first. *)
Definition digits (s : N) : string := NilZero.string_of_uint (N.to_uint s).

(** Number of trailing ["0"] characters. *)
Fixpoint trailing0 (d : string) : nat :=
  match d with
  | EmptyString => O
  | String c r =>
      if Str.all (Ascii.eqb "0") r
      then (if Ascii.eqb c "0" then S (String.length r) else String.length r)
      else trailing0 r
  end.

(** [Number::toString] of ECMAScript, radix 10, on a positive finite value
    given by its significant digits [d] ([k] of them, no trailing zero) and
    the exponent [n] with value [0.d * 10^n]. *)
Definition to_string_pos (d : string) (n : Z) : string :=
  let k := Z.of_nat (String.length d) in
  if (k <=? n) && (n <=? 21) then
    d ++ Str.repeat0 (Z.to_nat (n - k))
  else if (0 <? n) && (n <=? 21) then
    Str.take (Z.to_nat n) d ++ "." ++ Str.drop (Z.to_nat n) d
  else if (-6 <? n) && (n <=? 0) then
    "0." ++ Str.repeat0 (Z.to_nat (- n)) ++ d
  else
    let ex := n - 1 in
    let sign := if ex <? 0 then "-" else "+" in
    let mant :=
      match d with
      | String c (String _ _ as r) => String c ("." ++ r)
      | _ => d
      end in
    mant ++ "e" ++ sign ++ digits (Z.abs_N ex).

(** ToString applied to a Number, as a template literal does. *)
Definition to_string (x : number) : string :=
  match x with
  | NaN => "NaN"
  | Infinity negative => if negative then "-Infinity" else "Infinity"
  | Finite negative s e =>
      if (s =? 0)%N then "0"
      else
        let d0 := digits s in
        let z := trailing0 d0 in
        let d := Str.take (String.length d0 - z) d0 in
        let n := Z.of_nat (String.length d0) + e in
        (if negative then "-" else "") ++ to_string_pos d n
  end.

End Num.

(* ================================================================== *)
(** ** JSON values at the protocol boundary *)

(** The argument payload of a tool call is whatever the transport parsed:
    absent ([VUndefined]) or a JSON value.  An object is kept as the list of
    its properties; [get_field] is the property read [data[key]], which
    yields [undefined] for a key the object does not have. *)
Inductive JsValue : Type :=
| VUndefined
| VNull
| VBool (b : bool)
| VNumber (x : number)
| VString (s : string)
| VArray (items : list JsValue)
| VObject (fields : list (string * JsValue)).

Fixpoint get_field (fields : list (string * JsValue)) (key : string) : JsValue :=
  match fields with
  | [] => VUndefined
  | (k, v) :: rest => if String.eqb k key then v else get_field rest key
  end.

(** Property read on any payload: only an object has properties. *)
Definition property (payload : JsValue) (key : string) : JsValue :=
  match payload with
  | VObject fields => get_field fields key
  | _ => VUndefined
  end.

(* ================================================================== *)
(** ** zod: the schema combinators the program uses *)

Module Zod.

Inductive ZodParsedType : Type :=
| t_string | t_nan | t_number | t_boolean
| t_undefined | t_null | t_array | t_object.

Definition getParsedType (data : JsValue) : ZodParsedType :=
  match data with
  | VUndefined => t_undefined
  | VNull => t_null
  | VBool _ => t_boolean
  | VNumber NaN => t_nan
  | VNumber _ => t_number
  | VString _ => t_string
  | VArray _ => t_array
  | VObject _ => t_object
  end.

(** The issue kinds these schemas can raise, each with the path of the
    value it is about. *)
Inductive ZodIssue : Type :=
| invalid_type (expected : string) (received : ZodParsedType) (path : list string)
| invalid_enum_value (received : string) (options : list string) (path : list string)
| too_small (minimum : number) (path : list string)
| too_big (maximum : number) (path : list string).

Definition issue_path (i : ZodIssue) : list string :=
  match i with
  | invalid_type _ _ p => p
  | invalid_enum_value _ _ p => p
  | too_small _ p => p
  | too_big _ p => p
  end.

(** Result of parsing one value: the parsed output, or the issues raised. *)
Inductive ParseReturn (A : Type) : Type :=
| OK (value : A)
| INVALID (issues : list ZodIssue).
Arguments OK {A} value.
Arguments INVALID {A} issues.

Definition issues_of {A} (r : ParseReturn A) : list ZodIssue :=
  match r with
  | OK _ => []
  | INVALID l => l
  end.

Definition ZodType (A : Type) : Type := list string -> JsValue -> ParseReturn A.

(** [z.string()] *)
Definition string_ : ZodType string := fun path data =>
  match data with
  | VString s => OK s
  | _ => INVALID [invalid_type "string" (getParsedType data) path]
  end.

(** [.optional()]: [undefined] is accepted as it is. *)
Definition optional {A} (inner : ZodType A) : ZodType (option A) := fun path data =>
  match data with
  | VUndefined => OK None
  | _ =>
      match inner path data with
      | OK a => OK (Some a)
      | INVALID l => INVALID l
      end
  end.

(** [.default(d)]: [undefined] is replaced by [d] before the inner schema
    runs. *)
Definition default {A} (inner : ZodType A) (d : JsValue) : ZodType A := fun path data =>
  match data with
  | VUndefined => inner path d
  | _ => inner path data
  end.

Fixpoint assoc {A} (key : string) (l : list (string * A)) : option A :=
  match l with
  | [] => None
  | (k, a) :: rest => if String.eqb k key then Some a else assoc key rest
  end.

Fixpoint joinValues (l : list string) : string :=
  match l with
  | [] => ""
  | [x] => "'" ++ x ++ "'"
  | x :: rest => "'" ++ x ++ "' | " ++ joinValues rest
  end.

(** [z.enum([...])]: a string that is one of the listed values; each value
    comes with the variant of the inferred union type it stands for. *)
Definition enum {A} (values : list (string * A)) : ZodType A := fun path data =>
  match data with
  | VString s =>
      match assoc s values with
      | Some a => OK a
      | None => INVALID [invalid_enum_value s (map fst values) path]
      end
  | _ => INVALID [invalid_type (joinValues (map fst values)) (getParsedType data) path]
  end.

(** The checks [.min(v)] and [.max(v)] add to a number schema (both
    inclusive). *)
Inductive ZodNumberCheck : Type :=
| min (value : number)
| max (value : number).

Definition run_check (path : list string) (x : number) (c : ZodNumberCheck)
  : list ZodIssue :=
  match c with
  | min v => if Num.ltb x v then [too_small v path] else []
  | max v => if Num.gtb x v then [too_big v path] else []
  end.

(** [z.number()] with its checks: the type test first (NaN is not a
    number for zod), then every check; a failed check does not stop the
    ones after it. *)
Definition number_ (checks : list ZodNumberCheck) : ZodType number := fun path data =>
  match data with
  | VNumber x =>
      match getParsedType data with
      | t_number =>
          match flat_map (run_check path x) checks with
          | [] => OK x
          | l => INVALID l
          end
      | received => INVALID [invalid_type "number" received path]
      end
  | _ => INVALID [invalid_type "number" (getParsedType data) path]
  end.

(** Combining the properties of an object: every property is parsed, and
    the issues of all of them are kept, in the order of the shape. *)
Definition ap {A B} (f : ParseReturn (A -> B)) (a : ParseReturn A) : ParseReturn B :=
  match f, a with
  | OK g, OK x => OK (g x)
  | _, _ => INVALID (issues_of f ++ issues_of a)%list
  end.

(** One property of the shape: the schema runs on [data[key]] under the
    path extended by the key. *)
Definition prop {A} (key : string) (t : ZodType A)
  (path : list string) (data : list (string * JsValue)) : ParseReturn A :=
  t (path ++ [key])%list (get_field data key).

(** [z.object(shape)]: the payload must be an object; keys outside the
    shape are dropped. *)
Definition object {A}
  (shape : list string -> list (string * JsValue) -> ParseReturn A) : ZodType A :=
  fun path data =>
    match data with
    | VObject fields => shape path fields
    | _ => INVALID [invalid_type "object" (getParsedType data) path]
    end.

Inductive SafeParseReturn (A : Type) : Type :=
| ParseSuccess (data : A)
| ParseFailure (error : list ZodIssue).
Arguments ParseSuccess {A} data.
Arguments ParseFailure {A} error.

Definition safeParse {A} (schema : ZodType A) (data : JsValue) : SafeParseReturn A :=
  match schema [] data with
  | OK a => ParseSuccess a
  | INVALID l => ParseFailure l
  end.

Definition success {A} (r : SafeParseReturn A) : bool :=
  match r with
  | ParseSuccess _ => true
  | ParseFailure _ => false
  end.

End Zod.

Declare Scope zod_scope.
Delimit Scope zod_scope with zod.
Notation "f <*> a" := (Zod.ap f a) (at level 51, left associativity) : zod_scope.

(* ================================================================== *)
(** ** The scan configuration and its schema *)

Inductive ScanType : Type := quick | full | version.

(** [z.infer<typeof NmapScanSchema>] *)
Record NmapScanParams : Type := mkParams {
  target : string;
  ports : option string;
  scanType : ScanType;
  timing : number;
  additionalFlags : option string
}.

Definition NmapScanSchema : Zod.ZodType NmapScanParams :=
  Zod.object (fun path data =>
    (Zod.OK mkParams
      <*> Zod.prop "target" Zod.string_ path data
      <*> Zod.prop "ports" (Zod.optional Zod.string_) path data
      <*> Zod.prop "scanType"
            (Zod.default
               (Zod.enum [("quick", quick); ("full", full); ("version", version)])
               (VString "quick")) path data
      <*> Zod.prop "timing"
            (Zod.default
               (Zod.number_ [Zod.min (Num.of_Z 0); Zod.max (Num.of_Z 5)])
               (VNumber (Num.of_Z 3))) path data
      <*> Zod.prop "additionalFlags" (Zod.optional Zod.string_) path data)%zod).

(* ================================================================== *)
(** ** Effects: what a request does besides returning *)

(** A JS error object: [message], and the properties [child_process] adds
    to the error of a failed command. *)
Record JsError : Type := mkError {
  message : string;
  code : option Z;
  signal : option string;
  err_stdout : option string;
  err_stderr : option string
}.

(** [new Error(msg)] *)
Definition new_Error (msg : string) : JsError := mkError msg None None None None.

(** A thrown value: an [Error], or any other value, kept as what
    [String(value)] gives for it. *)
Inductive JsThrown : Type :=
| ThrownError (e : JsError)
| ThrownOther (as_string : string).

(** [error instanceof Error ? error.message : String(error)] *)
Definition errorMessage (error : JsThrown) : string :=
  match error with
  | ThrownError e => message e
  | ThrownOther s => s
  end.

(** Observable actions of a request, in the order they happen. *)
Inductive Event : Type :=
| Launch (command : string)
    (* the command is handed to the process layer, which starts a child *)
| ConsoleError (args : list string).
    (* console.error(...args) *)

Inductive Completion (A : Type) : Type :=
| Return (a : A)
| Throw (error : JsThrown).
Arguments Return {A} a.
Arguments Throw {A} error.

(** An awaited computation: the events it caused and how it completed. *)
Definition Eff (A : Type) : Type := list Event * Completion A.

Module Eff.

Definition ret {A} (a : A) : Eff A := ([], Return a).

Definition throw {A} (e : JsThrown) : Eff A := ([], Throw e).

Definition emit (ev : Event) : Eff unit := ([ev], Return tt).

Definition bind {A B} (m : Eff A) (k : A -> Eff B) : Eff B :=
  match m with
  | (t1, Return a) => let (t2, c) := k a in ((t1 ++ t2)%list, c)
  | (t1, Throw e) => (t1, Throw e)
  end.

(** [try { m } catch (error) { handler }] *)
Definition try_catch {A} (m : Eff A) (handler : JsThrown -> Eff A) : Eff A :=
  match m with
  | (t1, Return a) => (t1, Return a)
  | (t1, Throw e) => let (t2, c) := handler e in ((t1 ++ t2)%list, c)
  end.

Definition trace {A} (m : Eff A) : list Event := fst m.

(** The commands handed to the process layer, in order. *)
Fixpoint launched (t : list Event) : list string :=
  match t with
  | [] => []
  | Launch c :: r => c :: launched r
  | ConsoleError _ :: r => launched r
  end.

(** What was written to the diagnostic channel, in order. *)
Fixpoint logged (t : list Event) : list (list string) :=
  match t with
  | [] => []
  | Launch _ :: r => logged r
  | ConsoleError a :: r => a :: logged r
  end.

End Eff.

Declare Scope eff_scope.
Delimit Scope eff_scope with eff.
Notation "x <- m ;; k" := (Eff.bind m (fun x => k))
  (at level 61, m at next level, right associativity) : eff_scope.
Notation "m ;; k" := (Eff.bind m (fun _ => k))
  (at level 61, right associativity) : eff_scope.

(* ================================================================== *)
(** ** Node: [child_process.exec] and [util.promisify] *)

Module Node.

(** What becomes of the shell that [exec] starts for a command. *)
Inductive ChildOutcome : Type :=
| Exited (status : Z) (stdout stderr : string)
    (* the shell ran and exited with this status *)
| Signaled (sig : string) (stdout stderr : string)
    (* the shell was terminated by a signal *)
| Failed (reason : string) (stdout stderr : string).
    (* the facility itself raised an error: the shell could not be
       spawned, or the output outgrew the buffer *)

(** Arguments [exec] passes to its callback. *)
Record ExecCallback : Type := mkCallback {
  cb_error : option JsError;
  cb_stdout : string;
  cb_stderr : string
}.

Definition newline : string := String (ascii_of_nat 10) EmptyString.

(** [exec(command, callback)]: [error] is [null] exactly when the shell
    exited with status 0; otherwise it is an [Error] whose [code] is the
    exit status. *)
Definition exec (sh : string -> ChildOutcome) (command : string) : ExecCallback :=
  match sh command with
  | Exited status out err =>
      if status =? 0 then mkCallback None out err
      else mkCallback
             (Some (mkError ("Command failed: " ++ command ++ newline ++ err)
                            (Some status) None None None))
             out err
  | Signaled sig out err =>
      mkCallback
        (Some (mkError ("Command failed: " ++ command ++ newline ++ err)
                       None (Some sig) None None))
        out err
  | Failed reason out err =>
      mkCallback (Some (mkError reason None None None None)) out err
  end.

Record ExecOutput : Type := mkOutput {
  stdout : string;
  stderr : string
}.

(** [promisify(exec)]: resolves to [{ stdout, stderr }] when the callback
    gets no error; rejects with the callback's error, to which [stdout]
    and [stderr] are added, otherwise.  Calling it starts the child. *)
Definition promisify_exec (sh : string -> ChildOutcome) (command : string)
  : Eff ExecOutput :=
  let cb := exec sh command in
  ([Launch command],
   match cb_error cb with
   | None => Return (mkOutput (cb_stdout cb) (cb_stderr cb))
   | Some e =>
       Throw (ThrownError
                (mkError (message e) (code e) (signal e)
                         (Some (cb_stdout cb)) (Some (cb_stderr cb))))
   end).

End Node.

(* ================================================================== *)
(** ** The server *)

(** The protocol's result envelope. *)
Record TextContent : Type := mkText {
  type_ : string;
  text : string
}.

Record CallToolResult : Type := mkResult {
  content : list TextContent;
  isError : bool
}.

(** [request.params] of a tool call. *)
Record CallToolParams : Type := mkCall {
  name : string;
  arguments : JsValue
}.

Definition strategy_flag (t : ScanType) : string :=
  match t with
  | quick => " -F"
  | full => " -p-"
  | version => " -sV"
  end.

(** The command line [runNmapScan] builds, statement by statement. *)
Definition build_command (params : NmapScanParams) : string :=
  let command := "nmap -T" ++ Num.to_string (timing params) in
  let command := command ++ strategy_flag (scanType params) in
  let command :=
    match ports params with
    | Some p => if Str.truthy p then command ++ " -p" ++ p else command
    | None => command
    end in
  let command :=
    match additionalFlags params with
    | Some f => if Str.truthy f then command ++ " " ++ f else command
    | None => command
    end in
  command ++ " " ++ target params.

Section Server.

(** The host the server runs on: what the shell does with a command. *)
Variable sh : string -> Node.ChildOutcome.

(** String form of a [ZodError] (zod prints its issue list). *)
Variable ZodError_toString : list Zod.ZodIssue -> string.

Definition execAsync : string -> Eff Node.ExecOutput := Node.promisify_exec sh.

Definition runNmapScan (params : NmapScanParams) : Eff string :=
  let command := build_command params in
  Eff.try_catch
    (r <- execAsync command ;;
     (if Str.truthy (Node.stderr r)
      then Eff.emit (ConsoleError ["Nmap stderr:"; Node.stderr r])
      else Eff.ret tt) ;;
     Eff.ret (Node.stdout r))%eff
    (fun error =>
       Eff.throw (ThrownError (new_Error ("Nmap scan failed: " ++ errorMessage error)))).

(** The [CallToolRequestSchema] handler. *)
Definition callTool (params : CallToolParams) : Eff CallToolResult :=
  Eff.try_catch
    (if String.eqb (name params) "run_nmap_scan" then
       match Zod.safeParse NmapScanSchema (arguments params) with
       | Zod.ParseFailure error =>
           Eff.throw (ThrownError (new_Error
             ("Invalid arguments for run_nmap_scan: " ++ ZodError_toString error)))
       | Zod.ParseSuccess data =>
           (result <- runNmapScan data ;;
            Eff.ret (mkResult [mkText "text" result] false))%eff
       end
     else
       Eff.throw (ThrownError (new_Error ("Unknown tool: " ++ name params))))
    (fun error =>
       Eff.ret (mkResult [mkText "text" ("Error: " ++ errorMessage error)] true)).

End Server.

(** *** Listing the tools *)

(** One entry of the tool list. *)
Record Tool : Type := mkTool {
  tool_name : string;
  description : string;
  inputSchema : JsValue
}.

Record ListToolsResult : Type := mkTools {
  tools : list Tool
}.

(** The [ListToolsRequestSchema] handler.  The schema document is what
    [zodToJsonSchema(NmapScanSchema)] gives; that library is outside the
    program, so the document is an argument here. *)
Definition listTools (schema_document : JsValue) : ListToolsResult :=
  mkTools
    [mkTool "run_nmap_scan"
       "Run an NMAP scan on a target. Supports various scan types and configurations."
       schema_document].

(** *** Starting the server *)

(** What the process does on its own behalf: lines on the diagnostic
    channel, each a list of printed values, and its end. *)
Inductive LogValue : Type :=
| LogText (s : string)
| LogThrown (e : JsThrown).

Inductive HostEvent : Type :=
| Diagnostic (args : list LogValue)     (* console.error(...args) *)
| ProcessExit (status : Z).             (* process.exit(status) *)

(** [runServer]: connect the transport, then announce the server.
    [connect] is how [server.connect(transport)] completes. *)
Definition runServer (connect : Completion unit) : list HostEvent * Completion unit :=
  match connect with
  | Return _ => ([Diagnostic [LogText "NMAP server running on stdio"]], Return tt)
  | Throw e => ([], Throw e)
  end.

(** The last statement of the program: [runServer().catch(...)]. *)
Definition main (connect : Completion unit) : list HostEvent :=
  match runServer connect with
  | (t, Return _) => t
  | (t, Throw error) =>
      (t ++ [Diagnostic [LogText "Fatal error running server:"; LogThrown error];
             ProcessExit 1])%list
  end.

(* ================================================================== *)
(** ** Vocabulary of the properties *)

(** The piece an optional string adds to the command when it is given and
    not empty: the string behind its lead-in; nothing otherwise. *)
Definition segment (lead : string) (o : option string) : string :=
  match o with
  | Some s => if Str.truthy s then lead ++ s else ""
  | None => ""
  end.

(** The same piece when only being given is asked for. *)
Definition segment_if_present (lead : string) (o : option string) : string :=
  match o with
  | Some s => lead ++ s
  | None => ""
  end.

(** The command in the fixed order of the specification, with the port
    flag and the additional flags added whenever the field is present. *)
Definition command_as_worded (c : NmapScanParams) : string :=
  "nmap -T" ++ Num.to_string (timing c)
  ++ strategy_flag (scanType c)
  ++ segment_if_present " -p" (ports c)
  ++ segment_if_present " " (additionalFlags c)
  ++ " " ++ target c.

(** The declared mapping from scan type to strategy flag. *)
Definition strategy_word (t : ScanType) : string :=
  match t with
  | quick => "-F"
  | full => "-p-"
  | version => "-sV"
  end.

Definition is_strategy_flag (w : string) : bool :=
  existsb (String.eqb w) ["-F"; "-p-"; "-sV"].

(** Number of strategy flags among the words of a command line. *)
Definition count_strategy (ws : list string) : nat :=
  List.length (filter is_strategy_flag ws).

(** The words the caller's own strings bring into the command. *)
Definition caller_words (c : NmapScanParams) : list string :=
  (Str.words (segment "-p" (ports c))
   ++ Str.words (segment "" (additionalFlags c))
   ++ Str.words (target c))%list.

(** The keys of the schema's shape, in its order. *)
Definition shape_keys : list string :=
  ["target"; "ports"; "scanType"; "timing"; "additionalFlags"].

(** A number within the closed range from 0 to 5. *)
Definition within_0_5 (x : number) : bool :=
  match x with
  | NaN => false
  | _ => negb (Num.ltb x (Num.of_Z 0)) && negb (Num.ltb (Num.of_Z 5) x)
  end.

(** The constraint each field of a payload is under: [target] a string;
    [ports] and [additionalFlags] absent or strings; [scanType] absent or
    one of the three variants; [timing] absent or a number within range. *)
Definition meets_constraint (key : string) (v : JsValue) : bool :=
  if String.eqb key "target" then
    match v with VString _ => true | _ => false end
  else if String.eqb key "ports" || String.eqb key "additionalFlags" then
    match v with VUndefined | VString _ => true | _ => false end
  else if String.eqb key "scanType" then
    match v with
    | VUndefined => true
    | VString s => existsb (String.eqb s) ["quick"; "full"; "version"]
    | _ => false
    end
  else if String.eqb key "timing" then
    match v with
    | VUndefined => true
    | VNumber x => within_0_5 x
    | _ => false
    end
  else true.

(** The fields of an object payload that fail their constraint, in the
    order of the shape. *)
Definition failing_fields (fields : list (string * JsValue)) : list string :=
  filter (fun k => negb (meets_constraint k (get_field fields k))) shape_keys.

(** The text of the envelope when validation failed with these issues. *)
Definition invalid_arguments_text
  (render : list Zod.ZodIssue -> string) (issues : list Zod.ZodIssue) : string :=
  "Error: Invalid arguments for run_nmap_scan: " ++ render issues.

(** What the diagnostic channel gets for a finished scan. *)
Definition stderr_log (err : string) : list Event :=
  if Str.truthy err then [ConsoleError ["Nmap stderr:"; err]] else [].

(** The envelope of a failure: one text item and the error flag. *)
Definition error_result (msg : string) : CallToolResult :=
  mkResult [mkText "text" msg] true.

(** The envelope of a success: one text item carrying the payload. *)
Definition success_result (payload : string) : CallToolResult :=
  mkResult [mkText "text" payload] false.

(** A tool call of the scan operation. *)
Definition scan_call (raw : JsValue) : CallToolParams := mkCall "run_nmap_scan" raw.

(** *** Sample hosts, printers and payloads *)

(** A host on which every command succeeds, printing a report and a
    warning. *)
Definition chatty_host : string -> Node.ChildOutcome :=
  fun _ => Node.Exited 0 "PORT STATE SERVICE" "Warning: slow".

(** A host on which the scanner is not installed: the shell reports 127. *)
Definition bare_host : string -> Node.ChildOutcome :=
  fun _ => Node.Exited 127 "Starting" "sh: nmap: not found".

(** A host on which no shell can be spawned. *)
Definition broken_host : string -> Node.ChildOutcome :=
  fun _ => Node.Failed "spawn /bin/sh ENOENT" "" "".

(** A host on which the report outgrows the buffer of the facility. *)
Definition flooded_host : string -> Node.ChildOutcome :=
  fun _ => Node.Failed "stdout maxBuffer length exceeded" "Starting Nmap" "".

(** A printer of issue lists: the paths of the issues, one after another. *)
Definition path_printer (issues : list Zod.ZodIssue) : string :=
  String.concat ";" (map (fun i => String.concat "." (Zod.issue_path i)) issues).

Definition payload_target_only : JsValue :=
  VObject [("target", VString "example.com")].

Definition payload_empty_ports : JsValue :=
  VObject [("target", VString "h"); ("ports", VString "")].

Definition payload_extra_strategy : JsValue :=
  VObject [("target", VString "h"); ("additionalFlags", VString "-sV")].

Definition payload_half_timing : JsValue :=
  VObject [("target", VString "h"); ("timing", VNumber (Finite false 25 (-1)))].

Definition payload_empty_target : JsValue :=
  VObject [("target", VString "")].

Definition payload_bogus : JsValue :=
  VObject [("scanType", VString "bogus")].

Definition payload_two_wrong : JsValue :=
  VObject [("target", VString "h"); ("scanType", VString "bogus");
           ("timing", VNumber (Num.of_Z 9))].

Definition payload_full_scan : JsValue :=
  VObject [("target", VString "10.0.0.1"); ("ports", VString "22-80");
           ("scanType", VString "version"); ("timing", VNumber (Num.of_Z 4));
           ("additionalFlags", VString "-sS --open")].

Definition config_full_scan : NmapScanParams :=
  mkParams "10.0.0.1" (Some "22-80") version (Num.of_Z 4) (Some "-sS --open").

Definition config_empty_ports : NmapScanParams :=
  mkParams "h" (Some "") quick (Num.of_Z 3) None.

Definition config_extra_strategy : NmapScanParams :=
  mkParams "h" None quick (Num.of_Z 3) (Some "-sV").

Definition config_half_timing : NmapScanParams :=
  mkParams "h" None quick (Finite false 25 (-1)) None.

Definition config_target_only : NmapScanParams :=
  mkParams "example.com" None quick (Num.of_Z 3) None.

(** *** Payloads written from a configuration *)

(** The name a scan type has on the wire. *)
Definition scanType_name (t : ScanType) : string :=
  match t with
  | quick => "quick"
  | full => "full"
  | version => "version"
  end.

(** The JSON value of an optional string: absent, or the string. *)
Definition optional_value (o : option string) : JsValue :=
  match o with
  | Some s => VString s
  | None => VUndefined
  end.

(** The property of an optional string in an object: none when absent. *)
Definition optional_field (key : string) (o : option string) : list (string * JsValue) :=
  match o with
  | Some s => [(key, VString s)]
  | None => []
  end.

(** The payload that spells a configuration out, field by field. *)
Definition payload_of (c : NmapScanParams) : JsValue :=
  VObject
    ([("target", VString (target c))]
     ++ optional_field "ports" (ports c)
     ++ [("scanType", VString (scanType_name (scanType c)));
         ("timing", VNumber (timing c))]
     ++ optional_field "additionalFlags" (additionalFlags c))%list.

(** The text of the envelope for a tool the server does not have. *)
Definition unknown_tool_text (tool : string) : string :=
  "Error: Unknown tool: " ++ tool.


(** The status the process ends with, if the events end it. *)
Fixpoint exit_status (t : list HostEvent) : option Z :=
  match t with
  | [] => None
  | ProcessExit status :: _ => Some status
  | Diagnostic _ :: r => exit_status r
  end.

(** The lines written to the diagnostic channel before the process ends. *)
Fixpoint diagnostics (t : list HostEvent) : list (list LogValue) :=
  match t with
  | [] => []
  | ProcessExit _ :: _ => []
  | Diagnostic a :: r => a :: diagnostics r
  end.

Definition payload_with_comment : JsValue :=
  VObject [("comment", VString "nightly"); ("target", VString "example.com");
           ("verbose", VBool true)].

Definition payload_null_ports : JsValue :=
  VObject [("target", VString "h"); ("ports", VNull)].

(* ================================================================== *)
(** * Properties *)

(** ** The model on sample inputs *)

Example to_string_3 : Num.to_string (Num.of_Z 3) = "3".
Proof. reflexivity. Qed.

Example to_string_2_5 : Num.to_string (Finite false 25 (-1)) = "2.5".
Proof. reflexivity. Qed.

Example to_string_50em1 : Num.to_string (Finite false 50 (-1)) = "5".
Proof. reflexivity. Qed.

Example to_string_1e21 : Num.to_string (Finite false 1 21) = "1e+21".
Proof. reflexivity. Qed.

Example to_string_small : Num.to_string (Finite true 125 (-9)) = "-1.25e-7".
Proof. reflexivity. Qed.

Example to_string_frac : Num.to_string (Finite false 5 (-3)) = "0.005".
Proof. reflexivity. Qed.

Example to_string_1200 : Num.to_string (Finite false 12 2) = "1200".
Proof. reflexivity. Qed.

Example parse_target_only :
  Zod.safeParse NmapScanSchema (VObject [("target", VString "example.com")])
  = Zod.ParseSuccess (mkParams "example.com" None quick (Num.of_Z 3) None).
Proof. reflexivity. Qed.

Example parse_bogus :
  Zod.safeParse NmapScanSchema (VObject [("scanType", VString "bogus")])
  = Zod.ParseFailure
      [Zod.invalid_type "string" Zod.t_undefined ["target"];
       Zod.invalid_enum_value "bogus" ["quick"; "full"; "version"] ["scanType"]].
Proof. reflexivity. Qed.

Example parse_null_ports :
  Zod.safeParse NmapScanSchema (VObject [("target", VString "h"); ("ports", VNull)])
  = Zod.ParseFailure [Zod.invalid_type "string" Zod.t_null ["ports"]].
Proof. reflexivity. Qed.

(** ** Strings and words *)

Module StrFacts.
Import Str.

Lemma app_assoc (a b c : string) : (a ++ b) ++ c = a ++ b ++ c.
Proof. induction a as [|x a IH]; simpl; [reflexivity | now rewrite IH]. Qed.

Lemma app_empty_r (a : string) : a ++ "" = a.
Proof. induction a as [|x a IH]; simpl; [reflexivity | now rewrite IH]. Qed.

Lemma all_app p (a b : string) : all p (a ++ b) = all p a && all p b.
Proof.
  induction a as [|x a IH]; simpl; [reflexivity|].
  now rewrite IH, andb_assoc.
Qed.

Lemma all_take p n : forall d, all p d = true -> all p (take n d) = true.
Proof.
  induction n as [|n IH]; intros [|c r]; simpl; try reflexivity.
  intros H. apply andb_prop in H as [Hc Hr]. now rewrite Hc, IH.
Qed.

Lemma all_drop p n : forall d, all p d = true -> all p (drop n d) = true.
Proof.
  induction n as [|n IH]; intros [|c r]; simpl; trivial.
  intros H. apply andb_prop in H as [_ Hr]. now apply IH.
Qed.

Lemma all_repeat0 p n : p "0"%char = true -> all p (repeat0 n) = true.
Proof. intros H. induction n; simpl; [reflexivity | now rewrite H]. Qed.

(** A string is a break when nothing of it can extend the word before it:
    it is empty or opens with a space. *)
Definition break (b : string) : Prop :=
  match b with
  | EmptyString => True
  | String c _ => c = " "%char
  end.

Lemma break_app (a b : string) : break a -> break b -> break (a ++ b).
Proof. destruct a; simpl; auto. Qed.

Lemma words_break (b : string) : break b -> forall acc,
  words_from acc b = (flush acc ++ words b)%list.
Proof.
  destruct b as [|c r]; simpl; intros H acc.
  - now rewrite app_nil_r.
  - subst c. reflexivity.
Qed.

(** Words split at a break. *)
Lemma words_from_app (a b : string) : break b -> forall acc,
  words_from acc (a ++ b) = (words_from acc a ++ words b)%list.
Proof.
  intros Hb. induction a as [|c a IH]; intros acc; simpl.
  - now apply words_break.
  - destruct (is_space c).
    + now rewrite IH, List.app_assoc.
    + apply IH.
Qed.

Definition no_space (s : string) : bool := all (fun c => negb (is_space c)) s.

Lemma words_from_no_space (a : string) : no_space a = true -> forall acc,
  words_from acc a = flush (acc ++ a).
Proof.
  unfold no_space. induction a as [|c a IH]; simpl; intros H acc.
  - now rewrite app_empty_r.
  - apply andb_prop in H as [Hc Ha].
    destruct (is_space c); [discriminate|].
    rewrite (IH Ha), app_assoc. reflexivity.
Qed.

(** One word followed by a break. *)
Lemma words_from_word (a b acc : string) :
  no_space a = true -> break b ->
  words_from acc (a ++ b) = (flush (acc ++ a) ++ words b)%list.
Proof.
  intros Ha Hb. now rewrite (words_from_app a b Hb), (words_from_no_space a Ha).
Qed.

Lemma contains_prefix (sub s : string) :
  String.prefix sub s = true -> contains sub s = true.
Proof. intros H. destruct s; simpl in *; now rewrite H. Qed.

Lemma prefix_app (p s : string) : String.prefix p (p ++ s) = true.
Proof.
  induction p as [|c p IH]; simpl; [now destruct s|].
  destruct (ascii_dec c c) as [_|n]; [exact IH | now elim n].
Qed.

Lemma contains_app_r (sub a b : string) :
  contains sub b = true -> contains sub (a ++ b) = true.
Proof.
  intros H. induction a as [|c a IH]; simpl; [exact H|].
  rewrite IH. apply orb_true_r.
Qed.

End StrFacts.

(** ** The string form of a Number has no space in it *)

Module NumFacts.
Import Str StrFacts.

Lemma no_space_uint d : no_space (NilEmpty.string_of_uint d) = true.
Proof. unfold no_space. induction d; simpl; auto. Qed.

Lemma no_space_digits s : no_space (Num.digits s) = true.
Proof.
  unfold Num.digits, NilZero.string_of_uint.
  destruct (N.to_uint s) eqn:E; try reflexivity; rewrite <- E; apply no_space_uint.
Qed.

Lemma no_space_app a b :
  no_space a = true -> no_space b = true -> no_space (a ++ b) = true.
Proof. unfold no_space. intros Ha Hb. now rewrite all_app, Ha, Hb. Qed.

Lemma no_space_to_string_pos d n :
  no_space d = true -> no_space (Num.to_string_pos d n) = true.
Proof.
  intros Hd. unfold Num.to_string_pos.
  repeat match goal with |- context [if ?b then _ else _] => destruct b end;
    repeat (apply no_space_app; try reflexivity);
    try exact Hd;
    try (now apply all_take); try (now apply all_drop);
    try (now apply all_repeat0); try apply no_space_digits.
  all: destruct d as [|c [|c' r]]; try reflexivity; try exact Hd.
  all: unfold no_space in *; simpl in *;
    apply andb_prop in Hd as [-> Hd]; exact Hd.
Qed.

Theorem no_space_to_string x : no_space (Num.to_string x) = true.
Proof.
  destruct x as [|[|]|neg s e]; try reflexivity.
  unfold Num.to_string. destruct (s =? 0)%N; [reflexivity|].
  apply no_space_app; [now destruct neg|].
  apply no_space_to_string_pos. apply all_take, no_space_digits.
Qed.

End NumFacts.


(* ================================================================== *)
(** ** The compiled command *)

Module CommandFacts.
Import Str StrFacts.

(** The statements of [build_command], flattened. *)
Lemma build_command_eq (c : NmapScanParams) :
  build_command c
  = "nmap -T" ++ Num.to_string (timing c)
    ++ strategy_flag (scanType c)
    ++ segment " -p" (ports c)
    ++ segment " " (additionalFlags c)
    ++ " " ++ target c.
Proof.
  destruct c as [t p st tm af]. unfold build_command, segment. simpl.
  destruct p as [[|pc pr]|], af as [[|ac ar]|]; simpl;
    repeat rewrite app_assoc; simpl; reflexivity.
Qed.

Lemma strategy_flag_word (t : ScanType) : strategy_flag t = " " ++ strategy_word t.
Proof. now destruct t. Qed.

Lemma strategy_word_flag (t : ScanType) : is_strategy_flag (strategy_word t) = true.
Proof. now destruct t. Qed.

Lemma no_space_strategy_word (t : ScanType) : no_space (strategy_word t) = true.
Proof. now destruct t. Qed.

Lemma break_segment (lead : string) (o : option string) :
  break (segment (" " ++ lead) o).
Proof. destruct o as [[|x r]|]; simpl; auto. Qed.

(** A piece led in by a space contributes the words it has without it. *)
Lemma words_segment (lead : string) (o : option string) (rest : string) :
  break rest ->
  words (segment (" " ++ lead) o ++ rest)
  = (words (segment lead o) ++ words rest)%list.
Proof.
  intros Hr. destruct o as [[|x r]|]; try reflexivity.
  unfold segment. simpl truthy. cbv iota.
  change (words_from EmptyString ((lead ++ String x r) ++ rest)
          = (words (lead ++ String x r) ++ words rest)%list).
  apply words_from_app, Hr.
Qed.

Lemma words_build_command (c : NmapScanParams) :
  words (build_command c)
  = "nmap" :: ("-T" ++ Num.to_string (timing c)) :: strategy_word (scanType c)
      :: caller_words c.
Proof.
  rewrite build_command_eq, strategy_flag_word, (app_assoc " ").
  unfold caller_words.
  change (segment " -p") with (segment (" " ++ "-p")).
  change (segment " ") with (segment (" " ++ "")).
  assert (HA : break (segment (" " ++ "") (additionalFlags c) ++ " " ++ target c)).
  { apply break_app; [apply break_segment | reflexivity]. }
  assert (HP : break (segment (" " ++ "-p") (ports c)
                      ++ segment (" " ++ "") (additionalFlags c) ++ " " ++ target c)).
  { apply break_app; [apply break_segment | exact HA]. }
  change (words ("nmap -T" ++ ?x)) with (("nmap" :: words_from "-T" x)%list).
  rewrite words_from_word;
    [ | apply NumFacts.no_space_to_string | reflexivity ].
  change (words (" " ++ ?x)) with (words_from EmptyString x).
  rewrite words_from_word; [ | apply no_space_strategy_word | exact HP ].
  rewrite (words_segment "-p" (ports c) _ HA).
  rewrite (words_segment "" (additionalFlags c) (" " ++ target c) eq_refl).
  change (words (" " ++ target c)) with (words (target c)).
  destruct (scanType c); reflexivity.
Qed.

Lemma timing_word_not_strategy (s : string) : is_strategy_flag ("-T" ++ s) = false.
Proof. reflexivity. Qed.

(** A port specification that is given and not empty stands in the
    command unmodified, behind its flag. *)
Lemma ports_verbatim (c : NmapScanParams) (p : string) :
  ports c = Some p -> truthy p = true ->
  contains (" -p" ++ p) (build_command c) = true.
Proof.
  intros Hp Ht. rewrite build_command_eq, Hp. unfold segment at 1. rewrite Ht.
  do 3 apply contains_app_r. apply contains_prefix, prefix_app.
Qed.

(** Additional flags that are given and not empty stand in the command
    unmodified. *)
Lemma additionalFlags_verbatim (c : NmapScanParams) (f : string) :
  additionalFlags c = Some f -> truthy f = true ->
  contains (" " ++ f) (build_command c) = true.
Proof.
  intros Hf Ht. rewrite build_command_eq, Hf. unfold segment at 2. rewrite Ht.
  do 4 apply contains_app_r. apply contains_prefix, prefix_app.
Qed.

(** The target closes the command. *)
Lemma target_last (c : NmapScanParams) :
  exists before, build_command c = before ++ " " ++ target c.
Proof.
  rewrite build_command_eq.
  exists ("nmap -T" ++ Num.to_string (timing c) ++ strategy_flag (scanType c)
          ++ segment " -p" (ports c) ++ segment " " (additionalFlags c)).
  now rewrite !app_assoc.
Qed.

End CommandFacts.

(* ================================================================== *)
(** ** Validation *)

Module SchemaFacts.
Import Zod.

Lemma issues_ap {A B} (f : ParseReturn (A -> B)) (a : ParseReturn A) :
  issues_of (f <*> a)%zod = (issues_of f ++ issues_of a)%list.
Proof. destruct f, a; reflexivity. Qed.

(** A failed parse carries at least one issue, for each schema used here. *)
Definition sound {A} (r : ParseReturn A) : Prop :=
  match r with
  | OK _ => True
  | INVALID l => l <> []
  end.

Lemma sound_ap {A B} (f : ParseReturn (A -> B)) (a : ParseReturn A) :
  sound f -> sound a -> sound (f <*> a)%zod.
Proof.
  destruct f as [g|lf], a as [x|la]; simpl; trivial; intros Hf Ha.
  - now rewrite app_nil_r.
  - destruct lf; [now elim Hf | discriminate].
Qed.

Lemma sound_string path data : sound (string_ path data).
Proof. destruct data; simpl; trivial; discriminate. Qed.

Lemma sound_optional {A} (t : ZodType A) path data :
  (forall d, sound (t path d)) -> sound (optional t path data).
Proof.
  intros H. unfold optional.
  destruct data; simpl; trivial;
    match goal with |- context [t path ?d] => specialize (H d); destruct (t path d) end;
    simpl in *; trivial.
Qed.

Lemma sound_default {A} (t : ZodType A) d path data :
  (forall x, sound (t path x)) -> sound (default t d path data).
Proof. intros H. unfold default. destruct data; apply H. Qed.

Lemma sound_enum {A} (values : list (string * A)) path data :
  sound (enum values path data).
Proof.
  unfold enum. destruct data; simpl; try discriminate.
  destruct (assoc s values); simpl; trivial; discriminate.
Qed.

Lemma sound_number checks path data : sound (number_ checks path data).
Proof.
  unfold number_. destruct data as [| | |x| | |]; simpl; try discriminate.
  destruct x; simpl; try discriminate;
    destruct (flat_map _ checks); simpl; trivial; discriminate.
Qed.

(** The issues of the object schema are those of its five properties, in
    the order of the shape. *)
Definition field_issues (fields : list (string * JsValue)) : list (list ZodIssue) :=
  [ issues_of (prop "target" string_ [] fields);
    issues_of (prop "ports" (optional string_) [] fields);
    issues_of (prop "scanType"
      (default (enum [("quick", quick); ("full", full); ("version", version)])
               (VString "quick")) [] fields);
    issues_of (prop "timing"
      (default (number_ [min (Num.of_Z 0); max (Num.of_Z 5)])
               (VNumber (Num.of_Z 3))) [] fields);
    issues_of (prop "additionalFlags" (optional string_) [] fields) ].

Lemma schema_issues (fields : list (string * JsValue)) :
  issues_of (NmapScanSchema [] (VObject fields)) = concat (field_issues fields).
Proof.
  unfold NmapScanSchema, object, field_issues.
  rewrite !issues_ap. simpl. now rewrite app_nil_r, <- !List.app_assoc.
Qed.

Lemma schema_sound (data : JsValue) : sound (NmapScanSchema [] data).
Proof.
  unfold NmapScanSchema, object. destruct data; try (simpl; discriminate).
  cbv beta. repeat apply sound_ap; try exact I; unfold prop.
  - apply sound_string.
  - apply sound_optional. intros; apply sound_string.
  - apply sound_default. intros; apply sound_enum.
  - apply sound_default. intros; apply sound_number.
  - apply sound_optional. intros; apply sound_string.
Qed.

(** Validation fails exactly when some issue was raised, and then reports
    all of them. *)
Lemma safeParse_schema (data : JsValue) :
  match safeParse NmapScanSchema data with
  | ParseSuccess _ => issues_of (NmapScanSchema [] data) = []
  | ParseFailure l => l = issues_of (NmapScanSchema [] data) /\ l <> []
  end.
Proof.
  unfold safeParse. pose proof (schema_sound data) as H.
  destruct (NmapScanSchema [] data); simpl in *; auto.
Qed.

End SchemaFacts.

(** ** Which fields validation reports *)

Module FieldFacts.
Import Zod SchemaFacts.

Lemma pow10_pos (k : Z) : 0 <= k -> 0 < 10 ^ k.
Proof. intros H. apply Z.pow_pos_nonneg; lia. Qed.

(** No number is both below 0 and above 5. *)
Lemma not_below_and_above (x : number) :
  Num.ltb x (Num.of_Z 0) = true -> Num.ltb (Num.of_Z 5) x = true -> False.
Proof.
  destruct x as [|[|]|neg s e]; try (simpl; discriminate).
  unfold Num.ltb, Num.of_Z, Num.align. intros H1 H2.
  apply Z.ltb_lt in H1, H2.
  assert (P1 : 0 < 10 ^ (e - Z.min e 0)) by (apply pow10_pos; lia).
  assert (P2 : 0 < 10 ^ (0 - Z.min 0 e)) by (apply pow10_pos; lia).
  assert (P3 : 0 < 10 ^ (e - Z.min 0 e)) by (apply pow10_pos; lia).
  change (Num.signed (0 <? 0) (Z.abs_N 0)) with 0 in H1.
  change (Num.signed (5 <? 0) (Z.abs_N 5)) with 5 in H2.
  assert (Hneg : Num.signed neg s < 0).
  { destruct (Z_lt_ge_dec (Num.signed neg s) 0) as [|Hge]; [assumption|].
    assert (0 <= Num.signed neg s * 10 ^ (e - Z.min e 0))
      by (apply Z.mul_nonneg_nonneg; lia).
    lia. }
  assert (Num.signed neg s * 10 ^ (e - Z.min 0 e) <= 0)
    by (apply Z.mul_nonpos_nonneg; lia).
  lia.
Qed.

Definition path_or_nothing (key : string) (v : JsValue) : list (list string) :=
  if meets_constraint key v then [] else [[key]].

Lemma paths_string key v : key = "target" ->
  map issue_path (issues_of (string_ [key] v)) = path_or_nothing key v.
Proof. intros ->. now destruct v. Qed.

Lemma paths_optional_string key v : key = "ports" \/ key = "additionalFlags" ->
  map issue_path (issues_of (optional string_ [key] v)) = path_or_nothing key v.
Proof. intros [-> | ->]; now destruct v. Qed.

Lemma meets_scanType v :
  meets_constraint "scanType" v
  = match v with
    | VUndefined => true
    | VString s => existsb (String.eqb s) ["quick"; "full"; "version"]
    | _ => false
    end.
Proof. reflexivity. Qed.

Lemma meets_timing v :
  meets_constraint "timing" v
  = match v with
    | VUndefined => true
    | VNumber x => within_0_5 x
    | _ => false
    end.
Proof. reflexivity. Qed.

Lemma paths_scanType v :
  map issue_path
    (issues_of (default (enum [("quick", quick); ("full", full); ("version", version)])
                        (VString "quick") ["scanType"] v))
  = path_or_nothing "scanType" v.
Proof.
  unfold path_or_nothing. rewrite meets_scanType.
  destruct v; try reflexivity.
  unfold default, enum. cbn [assoc existsb map fst].
  rewrite (String.eqb_sym s "quick"), (String.eqb_sym s "full"),
    (String.eqb_sym s "version").
  destruct (String.eqb "quick" s); [reflexivity|].
  destruct (String.eqb "full" s); [reflexivity|].
  destruct (String.eqb "version" s); reflexivity.
Qed.

Lemma paths_timing v :
  map issue_path
    (issues_of (default (number_ [min (Num.of_Z 0); max (Num.of_Z 5)])
                        (VNumber (Num.of_Z 3)) ["timing"] v))
  = path_or_nothing "timing" v.
Proof.
  unfold path_or_nothing. rewrite meets_timing.
  destruct v as [| | |x| | |]; try reflexivity.
  unfold default, number_, within_0_5.
  destruct x as [|n|n s e]; [reflexivity | |];
    cbn [getParsedType flat_map run_check]; unfold Num.gtb;
    match goal with
    | |- context [Num.ltb ?a (Num.of_Z 0)] =>
        destruct (Num.ltb a (Num.of_Z 0)) eqn:Hlo;
        destruct (Num.ltb (Num.of_Z 5) a) eqn:Hhi
    end;
    try reflexivity; exfalso; eapply not_below_and_above; eassumption.
Qed.

(** Validation raises one issue for each field that fails its constraint,
    under that field's name, and none for the others. *)
Lemma schema_paths (fields : list (string * JsValue)) :
  map issue_path (issues_of (NmapScanSchema [] (VObject fields)))
  = map (fun k => [k]) (failing_fields fields).
Proof.
  rewrite schema_issues. unfold field_issues, prop, failing_fields, shape_keys.
  cbn [concat List.app]. rewrite app_nil_r, !map_app.
  rewrite (paths_string "target" _ eq_refl).
  rewrite (paths_optional_string "ports" _ (or_introl eq_refl)).
  rewrite paths_scanType, paths_timing.
  rewrite (paths_optional_string "additionalFlags" _ (or_intror eq_refl)).
  unfold path_or_nothing. cbn [filter].
  destruct (meets_constraint "target" _), (meets_constraint "ports" _),
    (meets_constraint "scanType" _), (meets_constraint "timing" _),
    (meets_constraint "additionalFlags" _); reflexivity.
Qed.

End FieldFacts.

(* ================================================================== *)
(** ** The request handler, case by case *)

Section ServerFacts.

Variable sh : string -> Node.ChildOutcome.
Variable render : list Zod.ZodIssue -> string.

(** [runNmapScan] launches the compiled command once; it returns the
    captured standard output when the facility reports no error, and
    throws the prefixed error otherwise. *)
Lemma runNmapScan_cases (c : NmapScanParams) :
  runNmapScan sh c
  = let cb := Node.exec sh (build_command c) in
    match Node.cb_error cb with
    | None =>
        (Launch (build_command c) :: stderr_log (Node.cb_stderr cb),
         Return (Node.cb_stdout cb))
    | Some e =>
        ([Launch (build_command c)],
         Throw (ThrownError (new_Error ("Nmap scan failed: " ++ message e))))
    end.
Proof.
  unfold runNmapScan, execAsync, Node.promisify_exec, stderr_log.
  cbv zeta. destruct (Node.cb_error (Node.exec sh (build_command c))); simpl.
  - reflexivity.
  - destruct (Str.truthy (Node.cb_stderr (Node.exec sh (build_command c))));
      reflexivity.
Qed.

(** The three ways a call of the scan operation ends. *)
Lemma callTool_cases (raw : JsValue) :
  callTool sh render (scan_call raw)
  = match Zod.safeParse NmapScanSchema raw with
    | Zod.ParseFailure issues =>
        ([], Return (error_result (invalid_arguments_text render issues)))
    | Zod.ParseSuccess c =>
        let cb := Node.exec sh (build_command c) in
        match Node.cb_error cb with
        | None =>
            (Launch (build_command c) :: stderr_log (Node.cb_stderr cb),
             Return (success_result (Node.cb_stdout cb)))
        | Some e =>
            ([Launch (build_command c)],
             Return (error_result ("Error: Nmap scan failed: " ++ message e)))
        end
    end.
Proof.
  unfold callTool, scan_call. cbn [name arguments].
  change (String.eqb "run_nmap_scan" "run_nmap_scan") with true. cbv iota.
  destruct (Zod.safeParse NmapScanSchema raw) as [c|issues]; [|reflexivity].
  rewrite runNmapScan_cases. cbv zeta.
  destruct (Node.cb_error (Node.exec sh (build_command c))); simpl.
  - reflexivity.
  - unfold stderr_log.
    destruct (Str.truthy (Node.cb_stderr (Node.exec sh (build_command c))));
      reflexivity.
Qed.

(** A call under any other name launches nothing either. *)
Lemma callTool_unknown (other : string) (raw : JsValue) :
  String.eqb other "run_nmap_scan" = false ->
  callTool sh render (mkCall other raw)
  = ([], Return (error_result ("Error: Unknown tool: " ++ other))).
Proof. intros H. unfold callTool. cbn [name]. now rewrite H. Qed.

(** What [exec] tells its callback, by what became of the shell. *)
Lemma exec_error_exited (command : string) (status : Z) (out err : string) :
  sh command = Node.Exited status out err ->
  Node.cb_error (Node.exec sh command)
  = if status =? 0 then None
    else Some (mkError ("Command failed: " ++ command ++ Node.newline ++ err)
                       (Some status) None None None).
Proof.
  intros H. unfold Node.exec. rewrite H. now destruct (status =? 0).
Qed.

End ServerFacts.

(** ** Validation accepts a payload exactly when no field fails *)

Module ValidationFacts.
Import Zod SchemaFacts FieldFacts.

Lemma safeParse_failing (fields : list (string * JsValue)) :
  failing_fields fields <> [] ->
  exists issues,
    safeParse NmapScanSchema (VObject fields) = ParseFailure issues
    /\ map issue_path issues = map (fun k => [k]) (failing_fields fields).
Proof.
  intros Hf. pose proof (safeParse_schema (VObject fields)) as H.
  pose proof (schema_paths fields) as Hp.
  destruct (safeParse NmapScanSchema (VObject fields)) as [c|l].
  - rewrite H in Hp. destruct (failing_fields fields); [now elim Hf | discriminate].
  - destruct H as [-> _]. now exists (issues_of (NmapScanSchema [] (VObject fields))).
Qed.

Lemma safeParse_passing (fields : list (string * JsValue)) :
  failing_fields fields = [] ->
  exists c, safeParse NmapScanSchema (VObject fields) = ParseSuccess c.
Proof.
  intros Hf. pose proof (safeParse_schema (VObject fields)) as H.
  pose proof (schema_paths fields) as Hp. rewrite Hf in Hp.
  destruct (safeParse NmapScanSchema (VObject fields)) as [c|l].
  - now exists c.
  - destruct H as [-> Hne]. destruct (issues_of _); [now elim Hne | discriminate].
Qed.

Lemma failing_field_in (fields : list (string * JsValue)) (key : string) :
  In key shape_keys -> meets_constraint key (get_field fields key) = false ->
  In key (failing_fields fields).
Proof.
  intros Hk Hm. unfold failing_fields. apply filter_In. split; [exact Hk|].
  now rewrite Hm.
Qed.

(** A payload that is no object is refused as a whole. *)
Lemma safeParse_not_object (raw : JsValue) :
  (forall fields, raw <> VObject fields) ->
  safeParse NmapScanSchema raw
  = ParseFailure [invalid_type "object" (getParsedType raw) []].
Proof. intros H. destruct raw; try reflexivity. now elim (H fields). Qed.

(** A scan type outside the three variants is refused. *)
Lemma unknown_scanType_rejected (fields : list (string * JsValue)) (s : string) :
  get_field fields "scanType" = VString s ->
  existsb (String.eqb s) ["quick"; "full"; "version"] = false ->
  success (safeParse NmapScanSchema (VObject fields)) = false.
Proof.
  intros Hg Hs.
  destruct (safeParse_failing fields) as [l [-> _]]; [|reflexivity].
  intros Hnil.
  assert (Hin : In "scanType" (failing_fields fields)).
  { apply failing_field_in; [simpl; auto|]. now rewrite meets_scanType, Hg. }
  now rewrite Hnil in Hin.
Qed.

(** A timing outside the range, or of another type, is refused. *)
Lemma timing_outside_rejected (fields : list (string * JsValue)) :
  meets_constraint "timing" (get_field fields "timing") = false ->
  success (safeParse NmapScanSchema (VObject fields)) = false.
Proof.
  intros Hm.
  destruct (safeParse_failing fields) as [l [-> _]]; [|reflexivity].
  intros Hnil.
  assert (Hin : In "timing" (failing_fields fields)).
  { apply failing_field_in; [simpl; auto | exact Hm]. }
  now rewrite Hnil in Hin.
Qed.



End ValidationFacts.

(* ================================================================== *)
(** * The properties of the specification, C1 to C10 *)

(** C1, as worded, at a payload whose [ports] is present and empty: the
    payload is valid, the wording puts a port flag into the command, and
    [runNmapScan] does not. *)
Lemma C1_present_empty_ports_counterexample :
  Zod.safeParse NmapScanSchema payload_empty_ports = Zod.ParseSuccess config_empty_ports
  /\ build_command config_empty_ports = "nmap -T3 -F h"
  /\ command_as_worded config_empty_ports = "nmap -T3 -F -p h"
  /\ build_command config_empty_ports <> command_as_worded config_empty_ports.
Proof. repeat split; try reflexivity. discriminate. Qed.

(** C1 (amended): for every configuration that validation produces, the
    command is the concatenation, in this order, of ["nmap -T<timing>"], the
    strategy flag of the scan type, [" -p<ports>"] when [ports] is present
    and not empty, [" <additionalFlags>"] when [additionalFlags] is present
    and not empty, and [" <target>"]; it depends on the configuration only,
    and it is the one command the request hands to the process layer. *)
Theorem C1_command_layout
  (sh : string -> Node.ChildOutcome) (render : list Zod.ZodIssue -> string)
  (raw : JsValue) (c : NmapScanParams) :
  Zod.safeParse NmapScanSchema raw = Zod.ParseSuccess c ->
  build_command c
  = "nmap -T" ++ Num.to_string (timing c)
    ++ strategy_flag (scanType c)
    ++ segment " -p" (ports c)
    ++ segment " " (additionalFlags c)
    ++ " " ++ target c
  /\ Eff.launched (Eff.trace (callTool sh render (scan_call raw))) = [build_command c].
Proof.
  intros Hv. split; [apply CommandFacts.build_command_eq|].
  rewrite callTool_cases, Hv. cbv zeta.
  destruct (Node.cb_error _); simpl; [reflexivity|].
  unfold stderr_log. now destruct (Str.truthy _).
Qed.

(** C1 (amended) on a request that sets every field. *)
Lemma C1_command_layout_witness :
  build_command config_full_scan = "nmap -T4 -sV -p22-80 -sS --open 10.0.0.1"
  /\ Eff.launched (Eff.trace (callTool chatty_host path_printer (scan_call payload_full_scan)))
     = [build_command config_full_scan].
Proof.
  exact (C1_command_layout chatty_host path_printer payload_full_scan
           config_full_scan eq_refl).
Defined.

(** C2, as worded, at a payload whose [additionalFlags] is itself a
    strategy flag: the command carries two of them. *)
Lemma C2_two_strategy_flags_counterexample :
  Zod.safeParse NmapScanSchema payload_extra_strategy
  = Zod.ParseSuccess config_extra_strategy
  /\ Str.words (build_command config_extra_strategy) = ["nmap"; "-T3"; "-F"; "-sV"; "h"]
  /\ count_strategy (Str.words (build_command config_extra_strategy)) = 2%nat.
Proof. repeat split. Qed.

(** C2 (amended): the compiler puts exactly one strategy flag into the
    command, as its third word, and it is the one the mapping declares
    ([quick] gives -F, [full] gives -p-, [version] gives -sV); every other
    word comes verbatim from the caller's [ports], [additionalFlags] and
    [target], so the command has one strategy flag more than those words
    carry, and exactly one when they carry none. *)
Theorem C2_one_compiled_strategy_flag (c : NmapScanParams) :
  strategy_flag (scanType c) = " " ++ strategy_word (scanType c)
  /\ Str.words (build_command c)
     = "nmap" :: ("-T" ++ Num.to_string (timing c))
         :: strategy_word (scanType c) :: caller_words c
  /\ count_strategy (Str.words (build_command c))
     = S (count_strategy (caller_words c)).
Proof.
  split; [apply CommandFacts.strategy_flag_word|].
  split; [apply CommandFacts.words_build_command|].
  rewrite CommandFacts.words_build_command. unfold count_strategy.
  cbn [filter]. change (is_strategy_flag "nmap") with false. cbv iota.
  rewrite CommandFacts.timing_word_not_strategy, CommandFacts.strategy_word_flag.
  reflexivity.
Qed.

(** C3, at a payload whose [timing] is 2.5: validation accepts it although
    it is no integer, and the command launched carries it as its timing
    flag. *)
Theorem C3_fractional_timing_accepted :
  Zod.safeParse NmapScanSchema payload_half_timing = Zod.ParseSuccess config_half_timing
  /\ (forall z, ~ Num.is_Z (timing config_half_timing) z)
  /\ callTool chatty_host path_printer (scan_call payload_half_timing)
     = ([Launch "nmap -T2.5 -F h"; ConsoleError ["Nmap stderr:"; "Warning: slow"]],
        Return (success_result "PORT STATE SERVICE")).
Proof.
  repeat split.
  intros z H. unfold Num.is_Z, config_half_timing, timing, Num.align in H.
  change (Z.min (-1) 0) with (-1) in H.
  change (10 ^ (-1 - -1)) with 1 in H. change (10 ^ (0 - -1)) with 10 in H.
  change (Num.signed false 25) with 25 in H. lia.
Qed.

(** C4, as worded, at a payload whose [target] is the empty string:
    validation accepts it and the command is launched with no target. *)
Lemma C4_empty_target_counterexample :
  Zod.safeParse NmapScanSchema payload_empty_target
  = Zod.ParseSuccess (mkParams "" None quick (Num.of_Z 3) None)
  /\ Eff.launched
       (Eff.trace (callTool chatty_host path_printer (scan_call payload_empty_target)))
     = ["nmap -T3 -F "].
Proof. split; reflexivity. Qed.

(** C4 (amended): validation requires [target] to be present and a string.
    A payload whose [target] is absent or not a string is rejected: the
    result is the validation failure, reported under the field's name when
    the payload is an object, and nothing is compiled or launched.  The
    empty string is a string and passes. *)
Theorem C4_target_must_be_string
  (sh : string -> Node.ChildOutcome) (render : list Zod.ZodIssue -> string)
  (raw : JsValue) :
  (forall s, property raw "target" <> VString s) ->
  exists issues,
    Zod.safeParse NmapScanSchema raw = Zod.ParseFailure issues
    /\ (forall fields, raw = VObject fields ->
        In ["target"] (map Zod.issue_path issues))
    /\ callTool sh render (scan_call raw)
       = ([], Return (error_result (invalid_arguments_text render issues))).
Proof.
  intros Ht.
  assert (H : exists issues,
             Zod.safeParse NmapScanSchema raw = Zod.ParseFailure issues
             /\ (forall fields, raw = VObject fields ->
                 In ["target"] (map Zod.issue_path issues))).
  { destruct raw as [| | | | | |fields];
      try (eexists; split; [reflexivity | discriminate]).
    assert (Hin : In "target" (failing_fields fields)).
    { apply ValidationFacts.failing_field_in; [simpl; auto|].
      simpl in Ht. unfold meets_constraint.
      change (String.eqb "target" "target") with true. cbv iota.
      destruct (get_field fields "target"); try reflexivity. now elim (Ht s). }
    destruct (ValidationFacts.safeParse_failing fields) as [l [Hl Hp]].
    { intros Hnil. now rewrite Hnil in Hin. }
    exists l. split; [exact Hl|]. intros f _. rewrite Hp.
    now apply (in_map (fun k => [k])) in Hin. }
  destruct H as [issues [Hs Hp]]. exists issues.
  repeat split; trivial. now rewrite callTool_cases, Hs.
Qed.

(** C4 (amended) on a payload whose [target] is a number. *)
Lemma C4_target_must_be_string_witness :
  exists issues,
    Zod.safeParse NmapScanSchema (VObject [("target", VNumber (Num.of_Z 5))])
    = Zod.ParseFailure issues
    /\ (forall fields, VObject [("target", VNumber (Num.of_Z 5))] = VObject fields ->
        In ["target"] (map Zod.issue_path issues))
    /\ callTool broken_host path_printer
         (scan_call (VObject [("target", VNumber (Num.of_Z 5))]))
       = ([], Return (error_result (invalid_arguments_text path_printer issues))).
Proof.
  apply (C4_target_must_be_string broken_host path_printer
           (VObject [("target", VNumber (Num.of_Z 5))])).
  intros s. simpl. discriminate.
Defined.

(** C5: whenever the argument payload of the scan operation fails
    validation, the handler returns an error result and causes no event at
    all: in particular no child process is launched. *)
Theorem C5_invalid_payload_launches_nothing
  (sh : string -> Node.ChildOutcome) (render : list Zod.ZodIssue -> string)
  (raw : JsValue) :
  Zod.success (Zod.safeParse NmapScanSchema raw) = false ->
  exists result,
    callTool sh render (scan_call raw) = ([], Return result)
    /\ isError result = true
    /\ Eff.launched (Eff.trace (callTool sh render (scan_call raw))) = [].
Proof.
  intros Hf. rewrite callTool_cases.
  destruct (Zod.safeParse NmapScanSchema raw) as [c|issues]; [discriminate|].
  eexists. repeat split.
Qed.

(** C5 on the payload whose [scanType] is outside the three variants. *)
Lemma C5_invalid_payload_launches_nothing_witness :
  Zod.success (Zod.safeParse NmapScanSchema payload_bogus) = false
  /\ exists result,
       callTool chatty_host path_printer (scan_call payload_bogus) = ([], Return result)
       /\ isError result = true
       /\ Eff.launched
            (Eff.trace (callTool chatty_host path_printer (scan_call payload_bogus)))
          = [].
Proof.
  split; [reflexivity|].
  apply (C5_invalid_payload_launches_nothing chatty_host path_printer payload_bogus).
  reflexivity.
Defined.

(** C6: when fields of the payload fail their constraints, validation
    fails with one issue for every such field, under the field's name and
    in the order of the schema, not only for the first; the error text
    returned to the caller is built from this whole list; and nothing is
    launched, so no failing field was replaced by a default. *)
Theorem C6_every_failing_field_reported
  (sh : string -> Node.ChildOutcome) (render : list Zod.ZodIssue -> string)
  (fields : list (string * JsValue)) :
  failing_fields fields <> [] ->
  exists issues,
    Zod.safeParse NmapScanSchema (VObject fields) = Zod.ParseFailure issues
    /\ map Zod.issue_path issues = map (fun k => [k]) (failing_fields fields)
    /\ callTool sh render (scan_call (VObject fields))
       = ([], Return (error_result (invalid_arguments_text render issues))).
Proof.
  intros Hf.
  destruct (ValidationFacts.safeParse_failing fields Hf) as [l [Hl Hp]].
  exists l. repeat split; trivial. now rewrite callTool_cases, Hl.
Qed.

(** C6 on a payload with two failing fields: both are reported. *)
Lemma C6_every_failing_field_reported_witness :
  failing_fields [("target", VString "h"); ("scanType", VString "bogus");
                  ("timing", VNumber (Num.of_Z 9))]
  = ["scanType"; "timing"]
  /\ exists issues,
       Zod.safeParse NmapScanSchema payload_two_wrong = Zod.ParseFailure issues
       /\ map Zod.issue_path issues
          = map (fun k => [k])
              (failing_fields [("target", VString "h"); ("scanType", VString "bogus");
                               ("timing", VNumber (Num.of_Z 9))])
       /\ callTool chatty_host path_printer (scan_call payload_two_wrong)
          = ([], Return (error_result (invalid_arguments_text path_printer issues))).
Proof.
  split; [reflexivity|].
  apply (C6_every_failing_field_reported chatty_host path_printer
           [("target", VString "h"); ("scanType", VString "bogus");
            ("timing", VNumber (Num.of_Z 9))]).
  discriminate.
Defined.

(** C7: when the process layer reports the invocation as failed, the
    handler returns an error result whose one text item is
    ["Error: Nmap scan failed: "] followed by the message of the underlying
    failure; whatever output the failed process had produced is not in it.
    The command was launched once. *)
Theorem C7_failed_invocation_error_result
  (sh : string -> Node.ChildOutcome) (render : list Zod.ZodIssue -> string)
  (raw : JsValue) (c : NmapScanParams) (e : JsError) :
  Zod.safeParse NmapScanSchema raw = Zod.ParseSuccess c ->
  Node.cb_error (Node.exec sh (build_command c)) = Some e ->
  callTool sh render (scan_call raw)
  = ([Launch (build_command c)],
     Return (error_result ("Error: Nmap scan failed: " ++ message e)))
  /\ Str.starts_with "Error: Nmap scan failed: "
       ("Error: Nmap scan failed: " ++ message e) = true.
Proof.
  intros Hv He. split; [|apply StrFacts.prefix_app].
  now rewrite callTool_cases, Hv; cbv zeta; rewrite He.
Qed.

(** C7 on a host where the invocation fails after the process had begun
    to print: none of that output is in the result. *)
Lemma C7_failed_invocation_error_result_witness :
  callTool flooded_host path_printer (scan_call payload_target_only)
  = ([Launch "nmap -T3 -F example.com"],
     Return (error_result "Error: Nmap scan failed: stdout maxBuffer length exceeded"))
  /\ Str.starts_with "Error: Nmap scan failed: "
       "Error: Nmap scan failed: stdout maxBuffer length exceeded" = true.
Proof.
  exact (C7_failed_invocation_error_result flooded_host path_printer
           payload_target_only config_target_only
           (mkError "stdout maxBuffer length exceeded" None None None None)
           eq_refl eq_refl).
Defined.

(** C8: when the process exits with status 0, the handler returns a
    success result whose one text item is exactly the captured standard
    output, whatever was written to standard error; the standard error
    text, when there is some, goes to the diagnostic channel only. *)
Theorem C8_success_returns_stdout_only
  (sh : string -> Node.ChildOutcome) (render : list Zod.ZodIssue -> string)
  (raw : JsValue) (c : NmapScanParams) (out err : string) :
  Zod.safeParse NmapScanSchema raw = Zod.ParseSuccess c ->
  sh (build_command c) = Node.Exited 0 out err ->
  callTool sh render (scan_call raw)
  = (Launch (build_command c) :: stderr_log err, Return (success_result out))
  /\ (Str.truthy err = true ->
      Eff.logged (Eff.trace (callTool sh render (scan_call raw)))
      = [["Nmap stderr:"; err]]).
Proof.
  intros Hv Hs.
  assert (H : callTool sh render (scan_call raw)
              = (Launch (build_command c) :: stderr_log err,
                 Return (success_result out))).
  { rewrite callTool_cases, Hv. cbv zeta.
    unfold Node.exec. rewrite Hs. reflexivity. }
  split; [exact H|]. intros Ht. rewrite H. unfold stderr_log. now rewrite Ht.
Qed.

(** C8 on a host that prints a report and a warning. *)
Lemma C8_success_returns_stdout_only_witness :
  callTool chatty_host path_printer (scan_call payload_target_only)
  = (Launch "nmap -T3 -F example.com" :: stderr_log "Warning: slow",
     Return (success_result "PORT STATE SERVICE"))
  /\ (Str.truthy "Warning: slow" = true ->
      Eff.logged (Eff.trace (callTool chatty_host path_printer
                               (scan_call payload_target_only)))
      = [["Nmap stderr:"; "Warning: slow"]]).
Proof.
  exact (C8_success_returns_stdout_only chatty_host path_printer
           payload_target_only config_target_only
           "PORT STATE SERVICE" "Warning: slow" eq_refl eq_refl).
Defined.

(** C9: a configuration whose [ports] (or [additionalFlags]) is present
    and empty compiles to the very command of the same configuration with
    that field absent. *)
Theorem C9_empty_string_as_absent
  (t : string) (p af : option string) (st : ScanType) (tm : number) :
  build_command (mkParams t (Some "") st tm af) = build_command (mkParams t None st tm af)
  /\ build_command (mkParams t p st tm (Some "")) = build_command (mkParams t p st tm None).
Proof. split; reflexivity. Qed.

(** C10: when the process starts and exits with a status other than 0,
    the handler returns an error result, with the scan-step prefix before
    the message the process layer gives for a failed command, and not a
    success result with the captured standard output. *)
Theorem C10_nonzero_exit_is_error
  (sh : string -> Node.ChildOutcome) (render : list Zod.ZodIssue -> string)
  (raw : JsValue) (c : NmapScanParams) (status : Z) (out err : string) :
  Zod.safeParse NmapScanSchema raw = Zod.ParseSuccess c ->
  sh (build_command c) = Node.Exited status out err ->
  status <> 0 ->
  callTool sh render (scan_call raw)
  = ([Launch (build_command c)],
     Return (error_result
               ("Error: Nmap scan failed: "
                ++ "Command failed: " ++ build_command c ++ Node.newline ++ err))).
Proof.
  intros Hv Hs Hne. rewrite callTool_cases, Hv. cbv zeta.
  rewrite (exec_error_exited sh _ status out err Hs).
  destruct (Z.eqb_spec status 0) as [->|_]; [now elim Hne | reflexivity].
Qed.

(** C10 on a host whose shell exits with 127. *)
Lemma C10_nonzero_exit_is_error_witness :
  callTool bare_host path_printer (scan_call payload_target_only)
  = ([Launch "nmap -T3 -F example.com"],
     Return (error_result
               ("Error: Nmap scan failed: Command failed: nmap -T3 -F example.com"
                ++ Node.newline ++ "sh: nmap: not found"))).
Proof.
  refine (C10_nonzero_exit_is_error bare_host path_printer
            payload_target_only config_target_only 127
            "Starting" "sh: nmap: not found" eq_refl eq_refl _).
  discriminate.
Defined.

(* ================================================================== *)
(** * Further properties of the handlers, X1 onwards *)

(** ** Helpers *)

Section HandlerFacts.

Variable sh : string -> Node.ChildOutcome.
Variable render : list Zod.ZodIssue -> string.

(** [exec] reports no error only for a shell that exited with status 0. *)
Lemma exec_no_error (command : string) :
  Node.cb_error (Node.exec sh command) = None ->
  exists out err,
    sh command = Node.Exited 0 out err
    /\ Node.exec sh command = Node.mkCallback None out err.
Proof.
  unfold Node.exec. destruct (sh command) as [status out err|sig out err|reason out err];
    try discriminate.
  destruct (Z.eqb_spec status 0) as [->|_]; [|discriminate].
  intros _. now exists out, err.
Qed.

(** Every call ends in one of five ways. *)
Lemma callTool_outcomes (p : CallToolParams) :
  (String.eqb (name p) "run_nmap_scan" = false
   /\ callTool sh render p = ([], Return (error_result (unknown_tool_text (name p)))))
  \/ (String.eqb (name p) "run_nmap_scan" = true
      /\ ((exists issues,
             Zod.safeParse NmapScanSchema (arguments p) = Zod.ParseFailure issues
             /\ callTool sh render p
                = ([], Return (error_result (invalid_arguments_text render issues))))
          \/ (exists c,
                Zod.safeParse NmapScanSchema (arguments p) = Zod.ParseSuccess c
                /\ ((exists e,
                       Node.cb_error (Node.exec sh (build_command c)) = Some e
                       /\ callTool sh render p
                          = ([Launch (build_command c)],
                             Return (error_result
                                       ("Error: Nmap scan failed: " ++ message e))))
                    \/ (exists out err,
                          sh (build_command c) = Node.Exited 0 out err
                          /\ callTool sh render p
                             = (Launch (build_command c) :: stderr_log err,
                                Return (success_result out))))))).
Proof.
  destruct p as [n a]. cbn [name arguments].
  destruct (String.eqb n "run_nmap_scan") eqn:En.
  - right. split; [reflexivity|].
    apply String.eqb_eq in En. subst n.
    change (mkCall "run_nmap_scan" a) with (scan_call a). rewrite callTool_cases.
    destruct (Zod.safeParse NmapScanSchema a) as [c|issues].
    + right. exists c. split; [reflexivity|]. cbv zeta.
      destruct (Node.cb_error (Node.exec sh (build_command c))) as [e|] eqn:Ee.
      * left. now exists e.
      * right. destruct (exec_no_error _ Ee) as [out [err [Hs Hx]]].
        exists out, err. split; [exact Hs|]. now rewrite Hx.
    + left. now exists issues.
  - left. split; [reflexivity|]. now apply callTool_unknown.
Qed.

End HandlerFacts.

(** ** The handler as a whole *)

(** X1: a call under any name other than [run_nmap_scan] is answered with
    the error result naming the unknown tool; its arguments are not looked
    at and nothing is launched or logged. *)
Theorem X1_unknown_tool_refused
  (sh : string -> Node.ChildOutcome) (render : list Zod.ZodIssue -> string)
  (tool : string) (raw : JsValue) :
  tool <> "run_nmap_scan" ->
  callTool sh render (mkCall tool raw)
  = ([], Return (error_result (unknown_tool_text tool))).
Proof.
  intros H. apply callTool_unknown. now apply String.eqb_neq.
Qed.

(** X1 on a call of a tool named [ping], with a payload the scan
    operation would accept. *)
Lemma X1_unknown_tool_refused_witness :
  callTool chatty_host path_printer (mkCall "ping" payload_target_only)
  = ([], Return (error_result "Error: Unknown tool: ping")).
Proof.
  apply (X1_unknown_tool_refused chatty_host path_printer "ping" payload_target_only).
  discriminate.
Defined.


(** X3: a success result is returned only for a call of the scan
    operation whose payload validates and whose command the shell ran to
    exit status 0; its text is then the captured standard output. *)
Theorem X3_success_only_after_exit_0
  (sh : string -> Node.ChildOutcome) (render : list Zod.ZodIssue -> string)
  (p : CallToolParams) (t : list Event) (result : CallToolResult) :
  callTool sh render p = (t, Return result) ->
  isError result = false ->
  name p = "run_nmap_scan"
  /\ exists c out err,
       Zod.safeParse NmapScanSchema (arguments p) = Zod.ParseSuccess c
       /\ sh (build_command c) = Node.Exited 0 out err
       /\ result = success_result out
       /\ t = Launch (build_command c) :: stderr_log err.
Proof.
  intros Hc Hf.
  destruct (callTool_outcomes sh render p)
    as [[_ H] | [En [[issues [_ H]] | [c [Hv [[e [_ H]] | [out [err [Hs H]]]]]]]]];
    rewrite H in Hc; injection Hc as <- <-; try discriminate.
  split; [now apply String.eqb_eq|].
  now exists c, out, err.
Qed.

(** X3 on the request that names only a target, on a host where the scan
    succeeds. *)
Lemma X3_success_only_after_exit_0_witness :
  name (scan_call payload_target_only) = "run_nmap_scan"
  /\ exists c out err,
       Zod.safeParse NmapScanSchema (arguments (scan_call payload_target_only))
       = Zod.ParseSuccess c
       /\ chatty_host (build_command c) = Node.Exited 0 out err
       /\ success_result "PORT STATE SERVICE" = success_result out
       /\ [Launch "nmap -T3 -F example.com"; ConsoleError ["Nmap stderr:"; "Warning: slow"]]
          = Launch (build_command c) :: stderr_log err.
Proof.
  exact (X3_success_only_after_exit_0 chatty_host path_printer
           (scan_call payload_target_only)
           [Launch "nmap -T3 -F example.com"; ConsoleError ["Nmap stderr:"; "Warning: slow"]]
           (success_result "PORT STATE SERVICE") eq_refl eq_refl).
Defined.

(** X4: a request hands at most one command to the process layer, and
    writes at most one line to the diagnostic channel, only after that
    command: the events of a request are none, the launch alone, or the
    launch followed by the standard error report. *)
Theorem X4_at_most_one_launch
  (sh : string -> Node.ChildOutcome) (render : list Zod.ZodIssue -> string)
  (p : CallToolParams) :
  Eff.trace (callTool sh render p) = []
  \/ (exists command, Eff.trace (callTool sh render p) = [Launch command])
  \/ (exists command err,
        Str.truthy err = true
        /\ Eff.trace (callTool sh render p)
           = [Launch command; ConsoleError ["Nmap stderr:"; err]]).
Proof.
  destruct (callTool_outcomes sh render p)
    as [[_ H] | [_ [[issues [_ H]] | [c [_ [[e [_ H]] | [out [err [_ H]]]]]]]]];
    rewrite H; cbn [Eff.trace fst]; auto.
  - right. left. now exists (build_command c).
  - right. unfold stderr_log. destruct (Str.truthy err) eqn:Et.
    + right. now exists (build_command c), err.
    + left. now exists (build_command c).
Qed.

(** ** Helpers on validation *)

Module AcceptanceFacts.
Import Zod SchemaFacts FieldFacts ValidationFacts.

Lemma failing_none_iff (fields : list (string * JsValue)) :
  failing_fields fields = []
  <-> forallb (fun k => meets_constraint k (get_field fields k)) shape_keys = true.
Proof.
  unfold failing_fields. induction shape_keys as [|k l IH]; cbn [filter forallb].
  - now split.
  - destruct (meets_constraint k (get_field fields k)); cbn [negb andb].
    + exact IH.
    + split; discriminate.
Qed.


(** Each issue of a property of the shape is an issue of the object. *)
Lemma field_issue_in (fields : list (string * JsValue)) (l : list ZodIssue) (i : ZodIssue) :
  In l (field_issues fields) -> In i l ->
  In i (issues_of (NmapScanSchema [] (VObject fields))).
Proof.
  intros Hl Hi. rewrite schema_issues. apply in_concat. now exists l.
Qed.

Lemma failure_issues (fields : list (string * JsValue)) (i : ZodIssue) :
  In i (issues_of (NmapScanSchema [] (VObject fields))) ->
  safeParse NmapScanSchema (VObject fields)
  = ParseFailure (issues_of (NmapScanSchema [] (VObject fields))).
Proof.
  intros Hi. unfold safeParse.
  destruct (NmapScanSchema [] (VObject fields)); [now elim Hi | reflexivity].
Qed.



(** The name of a scan type is looked up as that scan type, and nothing
    else is. *)
Lemma assoc_scanType (s : string) (t : ScanType) :
  assoc s [("quick", quick); ("full", full); ("version", version)] = Some t
  <-> s = scanType_name t.
Proof.
  cbn [assoc].
  destruct (String.eqb_spec "quick" s) as [<-|N1].
  { destruct t; split; intros H; try reflexivity; discriminate. }
  destruct (String.eqb_spec "full" s) as [<-|N2].
  { destruct t; split; intros H; try reflexivity; discriminate. }
  destruct (String.eqb_spec "version" s) as [<-|N3].
  { destruct t; split; intros H; try reflexivity; discriminate. }
  split; [discriminate|]. intros ->. destruct t; [elim N1 | elim N2 | elim N3]; reflexivity.
Qed.

End AcceptanceFacts.

Module InversionFacts.
Import Zod.

Lemma string_OK path v s : string_ path v = OK s -> v = VString s.
Proof. destruct v; simpl; intros [= <-] || discriminate; reflexivity. Qed.

Lemma optional_string_OK path v o :
  optional string_ path v = OK o -> v = optional_value o.
Proof.
  destruct v; simpl; try discriminate; intros [= <-]; reflexivity.
Qed.

Lemma scanType_OK path v t :
  default (enum [("quick", quick); ("full", full); ("version", version)])
          (VString "quick") path v = OK t ->
  match v with
  | VUndefined => t = quick
  | _ => v = VString (scanType_name t)
  end.
Proof.
  destruct v; try discriminate.
  - now intros [= <-].
  - unfold default, enum.
    destruct (assoc s _) as [t'|] eqn:Ea; [|discriminate].
    intros [= <-]. apply AcceptanceFacts.assoc_scanType in Ea. now subst s.
Qed.

Lemma timing_OK path v x :
  default (number_ [min (Num.of_Z 0); max (Num.of_Z 5)])
          (VNumber (Num.of_Z 3)) path v = OK x ->
  match v with
  | VUndefined => x = Num.of_Z 3
  | _ => v = VNumber x
  end.
Proof.
  destruct v as [| | |y| | |]; try discriminate.
  - now intros [= <-].
  - unfold default, number_.
    destruct (getParsedType (VNumber y)); try discriminate.
    destruct (flat_map _ _); [|discriminate]. now intros [= <-].
Qed.

(** A successful parse of the object is a successful parse of each of its
    five properties. *)
Lemma schema_OK (fields : list (string * JsValue)) (c : NmapScanParams) :
  safeParse NmapScanSchema (VObject fields) = ParseSuccess c ->
  prop "target" string_ [] fields = OK (target c)
  /\ prop "ports" (optional string_) [] fields = OK (ports c)
  /\ prop "scanType"
       (default (enum [("quick", quick); ("full", full); ("version", version)])
                (VString "quick")) [] fields = OK (scanType c)
  /\ prop "timing"
       (default (number_ [min (Num.of_Z 0); max (Num.of_Z 5)])
                (VNumber (Num.of_Z 3))) [] fields = OK (timing c)
  /\ prop "additionalFlags" (optional string_) [] fields = OK (additionalFlags c).
Proof.
  unfold safeParse, NmapScanSchema, object. cbv beta.
  destruct (prop "target" _ _ _); [|discriminate].
  destruct (prop "ports" _ _ _); [|discriminate].
  destruct (prop "scanType" _ _ _); [|discriminate].
  destruct (prop "timing" _ _ _); [|discriminate].
  destruct (prop "additionalFlags" _ _ _); [|discriminate].
  cbn [ap]. intros [= <-]. cbn [target ports scanType timing additionalFlags].
  repeat split.
Qed.

End InversionFacts.

Section LaunchFacts.

Variable sh : string -> Node.ChildOutcome.
Variable render : list Zod.ZodIssue -> string.

(** A validated request launches the compiled command, once. *)
Lemma launched_valid (raw : JsValue) (c : NmapScanParams) :
  Zod.safeParse NmapScanSchema raw = Zod.ParseSuccess c ->
  Eff.launched (Eff.trace (callTool sh render (scan_call raw))) = [build_command c].
Proof.
  intros Hv. rewrite callTool_cases, Hv. cbv zeta.
  destruct (Node.cb_error _); simpl; [reflexivity|].
  unfold stderr_log. now destruct (Str.truthy _).
Qed.

(** A request whose validation fails with these issues gets them back. *)
Lemma refused_invalid (raw : JsValue) (issues : list Zod.ZodIssue) :
  Zod.safeParse NmapScanSchema raw = Zod.ParseFailure issues ->
  callTool sh render (scan_call raw)
  = ([], Return (error_result (invalid_arguments_text render issues))).
Proof. intros Hf. now rewrite callTool_cases, Hf. Qed.

End LaunchFacts.

(** ** Validation as a whole *)

(** X5: an object payload is accepted exactly when each of the five
    fields of the schema is within its constraint: [target] a string,
    [ports] and [additionalFlags] absent or strings, [scanType] absent or
    one of the three names, [timing] absent or a number from 0 to 5. *)
Theorem X5_accepted_iff_every_field_ok (fields : list (string * JsValue)) :
  Zod.success (Zod.safeParse NmapScanSchema (VObject fields))
  = forallb (fun k => meets_constraint k (get_field fields k)) shape_keys.
Proof.
  destruct (forallb _ shape_keys) eqn:Hall.
  - apply AcceptanceFacts.failing_none_iff in Hall.
    destruct (ValidationFacts.safeParse_passing fields Hall) as [c ->]. reflexivity.
  - destruct (ValidationFacts.safeParse_failing fields) as [l [-> _]]; [|reflexivity].
    intros Hnil. apply AcceptanceFacts.failing_none_iff in Hnil. congruence.
Qed.

(** X6: only the five keys of the schema count.  Two object payloads that
    agree on them are validated alike and answered alike, whatever other
    keys they carry and in whatever order. *)
Theorem X6_only_schema_keys_count
  (sh : string -> Node.ChildOutcome) (render : list Zod.ZodIssue -> string)
  (f1 f2 : list (string * JsValue)) :
  (forall k, In k shape_keys -> get_field f1 k = get_field f2 k) ->
  Zod.safeParse NmapScanSchema (VObject f1) = Zod.safeParse NmapScanSchema (VObject f2)
  /\ callTool sh render (scan_call (VObject f1))
     = callTool sh render (scan_call (VObject f2)).
Proof.
  intros H.
  assert (Hs : Zod.safeParse NmapScanSchema (VObject f1)
               = Zod.safeParse NmapScanSchema (VObject f2)).
  { unfold Zod.safeParse, NmapScanSchema, Zod.object, Zod.prop. cbv beta.
    rewrite (H "target"), (H "ports"), (H "scanType"), (H "timing"),
      (H "additionalFlags"); [reflexivity | | | | |]; simpl; auto 6. }
  split; [exact Hs|]. now rewrite !callTool_cases, Hs.
Qed.

(** X6 on a payload with two keys the schema does not have, against the
    payload without them. *)
Lemma X6_only_schema_keys_count_witness :
  Zod.safeParse NmapScanSchema payload_with_comment
  = Zod.safeParse NmapScanSchema payload_target_only
  /\ callTool chatty_host path_printer (scan_call payload_with_comment)
     = callTool chatty_host path_printer (scan_call payload_target_only).
Proof.
  apply (X6_only_schema_keys_count chatty_host path_printer
           [("comment", VString "nightly"); ("target", VString "example.com");
            ("verbose", VBool true)]
           [("target", VString "example.com")]).
  intros k [<-|[<-|[<-|[<-|[<-|[]]]]]]; reflexivity.
Defined.

(** X7: the configuration validation hands on is the payload, field by
    field: [target], and [ports] and [additionalFlags] as given or absent,
    are carried over unchanged; [scanType] and [timing] are the given
    values, and [quick] and 3 only where the payload has none. *)
Theorem X7_validated_configuration_is_the_payload
  (fields : list (string * JsValue)) (c : NmapScanParams) :
  Zod.safeParse NmapScanSchema (VObject fields) = Zod.ParseSuccess c ->
  get_field fields "target" = VString (target c)
  /\ get_field fields "ports" = optional_value (ports c)
  /\ get_field fields "additionalFlags" = optional_value (additionalFlags c)
  /\ match get_field fields "scanType" with
     | VUndefined => scanType c = quick
     | v => v = VString (scanType_name (scanType c))
     end
  /\ match get_field fields "timing" with
     | VUndefined => timing c = Num.of_Z 3
     | v => v = VNumber (timing c)
     end.
Proof.
  intros Hs.
  destruct (InversionFacts.schema_OK fields c Hs) as [Ht [Hp [Hst [Htm Haf]]]].
  unfold Zod.prop in *.
  repeat split.
  - now apply InversionFacts.string_OK in Ht.
  - now apply InversionFacts.optional_string_OK in Hp.
  - now apply InversionFacts.optional_string_OK in Haf.
  - apply InversionFacts.scanType_OK in Hst.
    destruct (get_field fields "scanType"); exact Hst.
  - apply InversionFacts.timing_OK in Htm.
    destruct (get_field fields "timing"); exact Htm.
Qed.

(** X7 on the request that sets every field. *)
Lemma X7_validated_configuration_is_the_payload_witness :
  VString "10.0.0.1" = VString (target config_full_scan)
  /\ VString "22-80" = optional_value (ports config_full_scan)
  /\ VString "-sS --open" = optional_value (additionalFlags config_full_scan)
  /\ VString "version" = VString (scanType_name (scanType config_full_scan))
  /\ VNumber (Num.of_Z 4) = VNumber (timing config_full_scan).
Proof.
  exact (X7_validated_configuration_is_the_payload
           [("target", VString "10.0.0.1"); ("ports", VString "22-80");
            ("scanType", VString "version"); ("timing", VNumber (Num.of_Z 4));
            ("additionalFlags", VString "-sS --open")]
           config_full_scan eq_refl).
Defined.

(** X8: every configuration whose timing is within range is reached.  The
    payload that spells it out validates to that very configuration,
    whatever characters its strings hold, and the request launches its
    command: no string is refused, trimmed or escaped on the way. *)
Theorem X8_spelled_out_payload_round_trip
  (sh : string -> Node.ChildOutcome) (render : list Zod.ZodIssue -> string)
  (c : NmapScanParams) :
  within_0_5 (timing c) = true ->
  Zod.safeParse NmapScanSchema (payload_of c) = Zod.ParseSuccess c
  /\ Eff.launched (Eff.trace (callTool sh render (scan_call (payload_of c))))
     = [build_command c].
Proof.
  intros Hw.
  assert (Hs : Zod.safeParse NmapScanSchema (payload_of c) = Zod.ParseSuccess c).
  { destruct c as [t p st tm af]. cbn [timing] in Hw.
    assert (Hn : Zod.number_ [Zod.min (Num.of_Z 0); Zod.max (Num.of_Z 5)]
                   ["timing"] (VNumber tm) = Zod.OK tm).
    { unfold within_0_5 in Hw. unfold Zod.number_.
      destruct tm as [|n|n s e]; [discriminate | |];
        apply andb_prop in Hw as [Hlo Hhi];
        apply negb_true_iff in Hlo, Hhi;
        cbn [Zod.getParsedType flat_map Zod.run_check]; unfold Num.gtb;
        rewrite Hlo, Hhi; reflexivity. }
    unfold payload_of, Zod.safeParse, NmapScanSchema, Zod.object, Zod.prop.
    cbn [target ports scanType timing additionalFlags]. cbv beta.
    destruct p as [p|], af as [af|], st;
      cbn [optional_field List.app scanType_name];
      cbn [get_field String.eqb Ascii.eqb Bool.eqb];
      unfold Zod.default; change ([] ++ ["timing"])%list with ["timing"];
      rewrite Hn; reflexivity. }
  split; [exact Hs | now apply launched_valid].
Qed.

(** X8 on a configuration whose target carries shell syntax. *)
Lemma X8_spelled_out_payload_round_trip_witness :
  Zod.safeParse NmapScanSchema
    (payload_of (mkParams "h; id" (Some "1-9") full (Num.of_Z 5) None))
  = Zod.ParseSuccess (mkParams "h; id" (Some "1-9") full (Num.of_Z 5) None)
  /\ Eff.launched
       (Eff.trace (callTool chatty_host path_printer
          (scan_call (payload_of (mkParams "h; id" (Some "1-9") full (Num.of_Z 5) None)))))
     = ["nmap -T5 -p- -p1-9 h; id"].
Proof.
  exact (X8_spelled_out_payload_round_trip chatty_host path_printer
           (mkParams "h; id" (Some "1-9") full (Num.of_Z 5) None) eq_refl).
Defined.

(** X9: a payload that is no object (absent arguments, [null], a string,
    a number, a list) is refused as a whole: one issue, at the root, that
    names the type received; nothing is launched. *)
Theorem X9_payload_must_be_object
  (sh : string -> Node.ChildOutcome) (render : list Zod.ZodIssue -> string)
  (raw : JsValue) :
  (forall fields, raw <> VObject fields) ->
  Zod.safeParse NmapScanSchema raw
  = Zod.ParseFailure [Zod.invalid_type "object" (Zod.getParsedType raw) []]
  /\ callTool sh render (scan_call raw)
     = ([], Return (error_result
                      (invalid_arguments_text render
                         [Zod.invalid_type "object" (Zod.getParsedType raw) []]))).
Proof.
  intros H. pose proof (ValidationFacts.safeParse_not_object raw H) as Hs.
  split; [exact Hs | now apply refused_invalid].
Qed.

(** X9 on a call that brings no arguments. *)
Lemma X9_payload_must_be_object_witness :
  Zod.safeParse NmapScanSchema VUndefined
  = Zod.ParseFailure [Zod.invalid_type "object" Zod.t_undefined []]
  /\ callTool chatty_host path_printer (scan_call VUndefined)
     = ([], Return (error_result "Error: Invalid arguments for run_nmap_scan: ")).
Proof.
  apply (X9_payload_must_be_object chatty_host path_printer VUndefined).
  discriminate.
Defined.

(** X10: for [ports] and [additionalFlags], [null] is not absent.  A
    value that is given and is no string, [null] included, makes the
    request fail with an issue under the field's name that tells the type
    received; nothing is launched. *)
Theorem X10_optional_field_must_be_string
  (sh : string -> Node.ChildOutcome) (render : list Zod.ZodIssue -> string)
  (fields : list (string * JsValue)) (key : string) :
  key = "ports" \/ key = "additionalFlags" ->
  get_field fields key <> VUndefined ->
  (forall s, get_field fields key <> VString s) ->
  exists issues,
    Zod.safeParse NmapScanSchema (VObject fields) = Zod.ParseFailure issues
    /\ In (Zod.invalid_type "string" (Zod.getParsedType (get_field fields key)) [key])
          issues
    /\ callTool sh render (scan_call (VObject fields))
       = ([], Return (error_result (invalid_arguments_text render issues))).
Proof.
  intros Hk Hu Hs.
  set (i := Zod.invalid_type "string" (Zod.getParsedType (get_field fields key)) [key]).
  assert (Hi : In i (Zod.issues_of (NmapScanSchema [] (VObject fields)))).
  { apply (AcceptanceFacts.field_issue_in fields
             (Zod.issues_of (Zod.prop key (Zod.optional Zod.string_) [] fields))).
    - unfold SchemaFacts.field_issues.
      destruct Hk as [-> | ->]; simpl; auto 6.
    - unfold Zod.prop, Zod.optional, Zod.string_, i.
      change ([] ++ [key])%list with [key].
      destruct (get_field fields key) as [| | | |s| |]; simpl; auto;
        try (now elim Hu); now elim (Hs s). }
  exists (Zod.issues_of (NmapScanSchema [] (VObject fields))).
  pose proof (AcceptanceFacts.failure_issues fields i Hi) as Hf.
  repeat split; trivial. now apply refused_invalid.
Qed.

(** X10 on the payload whose [ports] is [null]. *)
Lemma X10_optional_field_must_be_string_witness :
  exists issues,
    Zod.safeParse NmapScanSchema payload_null_ports = Zod.ParseFailure issues
    /\ In (Zod.invalid_type "string" Zod.t_null ["ports"]) issues
    /\ callTool chatty_host path_printer (scan_call payload_null_ports)
       = ([], Return (error_result (invalid_arguments_text path_printer issues))).
Proof.
  refine (X10_optional_field_must_be_string chatty_host path_printer
            [("target", VString "h"); ("ports", VNull)] "ports"
            (or_introl eq_refl) _ _).
  - discriminate.
  - intros s. discriminate.
Defined.

(** X11: a [timing] below 0 is refused with the issue of the lower bound,
    one above 5 with the issue of the upper bound, each under the field's
    name; nothing is launched. *)
Theorem X11_timing_bounds_enforced
  (sh : string -> Node.ChildOutcome) (render : list Zod.ZodIssue -> string)
  (fields : list (string * JsValue)) (x : number) :
  get_field fields "timing" = VNumber x ->
  Num.ltb x (Num.of_Z 0) = true \/ Num.ltb (Num.of_Z 5) x = true ->
  exists issues,
    Zod.safeParse NmapScanSchema (VObject fields) = Zod.ParseFailure issues
    /\ In (if Num.ltb x (Num.of_Z 0)
           then Zod.too_small (Num.of_Z 0) ["timing"]
           else Zod.too_big (Num.of_Z 5) ["timing"]) issues
    /\ callTool sh render (scan_call (VObject fields))
       = ([], Return (error_result (invalid_arguments_text render issues))).
Proof.
  intros Hg Hb.
  set (i := if Num.ltb x (Num.of_Z 0)
            then Zod.too_small (Num.of_Z 0) ["timing"]
            else Zod.too_big (Num.of_Z 5) ["timing"]).
  assert (Hi : In i (Zod.issues_of (NmapScanSchema [] (VObject fields)))).
  { apply (AcceptanceFacts.field_issue_in fields
             (Zod.issues_of
                (Zod.prop "timing"
                   (Zod.default
                      (Zod.number_ [Zod.min (Num.of_Z 0); Zod.max (Num.of_Z 5)])
                      (VNumber (Num.of_Z 3))) [] fields))).
    - unfold SchemaFacts.field_issues. simpl; auto 6.
    - unfold Zod.prop, Zod.default, Zod.number_, i. rewrite Hg.
      change ([] ++ ["timing"])%list with ["timing"].
      destruct x as [|n|n s e].
      + destruct Hb as [Hb|Hb]; discriminate Hb.
      + cbn [Zod.getParsedType flat_map Zod.run_check]. unfold Num.gtb.
        destruct (Num.ltb (Infinity n) (Num.of_Z 0)); [simpl; auto|].
        destruct Hb as [Hb|Hb]; [discriminate|]. rewrite Hb. simpl; auto.
      + cbn [Zod.getParsedType flat_map Zod.run_check]. unfold Num.gtb.
        destruct (Num.ltb (Finite n s e) (Num.of_Z 0)); [simpl; auto|].
        destruct Hb as [Hb|Hb]; [discriminate|]. rewrite Hb. simpl; auto. }
  exists (Zod.issues_of (NmapScanSchema [] (VObject fields))).
  pose proof (AcceptanceFacts.failure_issues fields i Hi) as Hf.
  repeat split; trivial. now apply refused_invalid.
Qed.

(** X11 on a payload whose [timing] is 9. *)
Lemma X11_timing_bounds_enforced_witness :
  exists issues,
    Zod.safeParse NmapScanSchema payload_two_wrong = Zod.ParseFailure issues
    /\ In (Zod.too_big (Num.of_Z 5) ["timing"]) issues
    /\ callTool chatty_host path_printer (scan_call payload_two_wrong)
       = ([], Return (error_result (invalid_arguments_text path_printer issues))).
Proof.
  exact (X11_timing_bounds_enforced chatty_host path_printer
           [("target", VString "h"); ("scanType", VString "bogus");
            ("timing", VNumber (Num.of_Z 9))]
           (Num.of_Z 9) eq_refl (or_intror eq_refl)).
Defined.



(** ** The tool list and the start of the server *)

(** X13: the tool list and the call handler agree.  A call is answered
    with the unknown-tool error exactly when its tool is not on the list
    the server gives out. *)
Theorem X13_listed_tools_are_the_served_ones
  (sh : string -> Node.ChildOutcome) (render : list Zod.ZodIssue -> string)
  (schema_document : JsValue) (tool : string) (raw : JsValue) :
  In tool (map tool_name (tools (listTools schema_document)))
  <-> callTool sh render (mkCall tool raw)
      <> ([], Return (error_result (unknown_tool_text tool))).
Proof.
  cbn [listTools tools map tool_name In]. split.
  - intros [<- | []].
    destruct (callTool_outcomes sh render (mkCall "run_nmap_scan" raw))
      as [[En _] | [_ [[issues [_ H]] | [c [_ [[e [_ H]] | [out [err [_ H]]]]]]]]];
      [discriminate En | | |]; rewrite H; discriminate.
  - intros Hne. destruct (String.eqb_spec tool "run_nmap_scan") as [->|Hd].
    + now left.
    + elim Hne. apply callTool_unknown. now apply String.eqb_neq.
Qed.

(** X14: the process ends itself, with status 1 and after reporting the
    error, exactly when connecting the transport fails; it announces the
    running server exactly when connecting succeeds, and then goes on. *)
Theorem X14_exit_1_exactly_on_connect_failure (connect : Completion unit) :
  (exit_status (main connect) = Some 1 <-> exists e, connect = Throw e)
  /\ (exit_status (main connect) = None <-> exists u, connect = Return u)
  /\ (In [LogText "NMAP server running on stdio"] (diagnostics (main connect))
      <-> exit_status (main connect) = None)
  /\ (forall e, connect = Throw e ->
      diagnostics (main connect)
      = [[LogText "Fatal error running server:"; LogThrown e]]).
Proof.
  destruct connect as [u|e]; cbn; repeat split; intros;
    try discriminate; try (now eexists); try congruence; auto.
  - destruct H as [e H]. discriminate.
  - destruct H as [x H]. discriminate.
  - destruct H as [H|[]]. discriminate.
Qed.

(** ** How the fields meet in the command *)

(** X15: the command keeps no border between the fields.  Additional
    flags that are not empty give the command of the same request with
    the flags moved to the front of the target; a port specification that
    is not empty gives the command of the same request with [-p<ports>]
    moved to the front of the additional flags. *)
Theorem X15_fields_run_together
  (t p f : string) (po : option string) (st : ScanType) (tm : number) :
  Str.truthy p = true -> Str.truthy f = true ->
  build_command (mkParams t po st tm (Some f))
  = build_command (mkParams (f ++ " " ++ t) po st tm None)
  /\ build_command (mkParams t (Some p) st tm (Some f))
     = build_command (mkParams t None st tm (Some ("-p" ++ p ++ " " ++ f))).
Proof.
  intros Hp Hf. rewrite !CommandFacts.build_command_eq.
  cbn [target ports scanType timing additionalFlags]. unfold segment.
  rewrite Hp, Hf. cbn [Str.truthy append].
  rewrite !StrFacts.app_assoc. split; reflexivity.
Qed.

(** X15 on flags and ports of a usual request. *)
Lemma X15_fields_run_together_witness :
  build_command (mkParams "10.0.0.1" None quick (Num.of_Z 3) (Some "-sS --open"))
  = build_command (mkParams "-sS --open 10.0.0.1" None quick (Num.of_Z 3) None)
  /\ build_command (mkParams "10.0.0.1" (Some "22-80") quick (Num.of_Z 3) (Some "-sS --open"))
     = build_command
         (mkParams "10.0.0.1" None quick (Num.of_Z 3) (Some "-p22-80 -sS --open")).
Proof.
  exact (X15_fields_run_together "10.0.0.1" "22-80" "-sS --open" None quick
           (Num.of_Z 3) eq_refl eq_refl).
Defined.

(** X16: the defaults reach the command.  An accepted request that names
    no [timing] has [-T3] as the second word of its command, and one that
    names no [scanType] has [-F] as the third. *)
Theorem X16_defaults_in_command
  (fields : list (string * JsValue)) (c : NmapScanParams) :
  Zod.safeParse NmapScanSchema (VObject fields) = Zod.ParseSuccess c ->
  (get_field fields "timing" = VUndefined ->
   nth_error (Str.words (build_command c)) 1 = Some "-T3")
  /\ (get_field fields "scanType" = VUndefined ->
      nth_error (Str.words (build_command c)) 2 = Some "-F").
Proof.
  intros Hs.
  destruct (InversionFacts.schema_OK fields c Hs) as [_ [_ [Hst [Htm _]]]].
  unfold Zod.prop in *. rewrite CommandFacts.words_build_command.
  split; intros Hu.
  - rewrite Hu in Htm. apply InversionFacts.timing_OK in Htm.
    cbn [nth_error]. now rewrite Htm.
  - rewrite Hu in Hst. apply InversionFacts.scanType_OK in Hst.
    cbn [nth_error]. now rewrite Hst.
Qed.

(** X16 on the request that names only a target. *)
Lemma X16_defaults_in_command_witness :
  (get_field [("target", VString "example.com")] "timing" = VUndefined ->
   nth_error (Str.words (build_command config_target_only)) 1 = Some "-T3")
  /\ (get_field [("target", VString "example.com")] "scanType" = VUndefined ->
      nth_error (Str.words (build_command config_target_only)) 2 = Some "-F").
Proof.
  exact (X16_defaults_in_command [("target", VString "example.com")]
           config_target_only eq_refl).
Defined.
